(** * DICOM anonymizer: the anonymization engine of [anonymize_dicom.py]

    A shallow embedding of [anonymize_dicom_file] and of the pydicom
    operations it calls, with the properties of the engine: the VR rewrite
    policy, the removal of private elements, the synchronisation of the
    file-meta instance identifier with the dataset body, and the outcome of
    the per-file operation. *)

From stdpp Require Import base strings pretty gmap list.
From Stdlib Require Import NArith Ascii.

(** * Data model *)

(** A tag is the pair (group, element); the selection of the source holds
    them as Python tuples, the dataset is keyed by them. *)
Abbreviation Tag := (N * N)%type.

(** A data element carries its VR and its value (the tag is the key under
    which the dataset holds it). The value is the text assigned to the
    element, or, for a sequence, the list of its item datasets. [VText s] is
    what the element holds after [elem.value = s]; under VR SQ, [VText ""]
    stands for the sequence without items that pydicom stores then. The VR
    is the string that the source compares with ["UI"], ["PN"], ... *)
Inductive DataElement : Type :=
  | Element (vr : string) (val : Value)
with Value : Type :=
  | VText (s : string)
  | VSequence (items : list (gmap Tag DataElement)).

Abbreviation Dataset := (gmap Tag DataElement).

Definition VR (e : DataElement) : string :=
  match e with Element vr _ => vr end.

Definition value (e : DataElement) : Value :=
  match e with Element _ v => v end.

(** [elem.value = v]: the value changes, the VR stays. *)
Definition set_value (e : DataElement) (v : Value) : DataElement :=
  Element (VR e) v.

(** What [pydicom.dcmread] gives: the main dataset and its [file_meta]. *)
Record FileDataset : Type := mkFileDataset {
  dataset : Dataset;
  file_meta : Dataset
}.

(** [BaseTag.is_private]: the group number is odd. *)
Definition is_private (tag : Tag) : bool := N.odd (fst tag).

(** (0002,0003) Media Storage SOP Instance UID and (0008,0018) SOP Instance
    UID, the element behind the attribute [SOPInstanceUID]. *)
Definition MediaStorageSOPInstanceUID : Tag := (0x0002, 0x0003)%N.
Definition SOPInstanceUID : Tag := (0x0008, 0x0018)%N.

(** ** The world of one call: identifier generator, log, file system *)

Inductive LogRecord : Type :=
  | Warning_skipping_non_dicom (input_path : string)
  | Warning_could_not_blank (tag : Tag)
  | Info_anonymized (input_path output_path : string).

Inductive FileContent : Type :=
  | DicomFile (fd : FileDataset)
  | OtherFile.

Record World : Type := mkWorld {
  next_uid : nat;                  (* identifiers drawn so far *)
  records : list LogRecord;        (* the log, oldest record first *)
  files : gmap string FileContent  (* the file system *)
}.

Definition log_record (r : LogRecord) (w : World) : World :=
  mkWorld (next_uid w) (records w ++ [r]) (files w).

Definition write_file (path : string) (c : FileContent) (w : World) : World :=
  mkWorld (next_uid w) (records w) (<[path := c]> (files w)).

Inductive Exception : Type :=
  | InvalidDicomError
  | AttributeError
  | OSError.

Inductive Result : Type :=
  | Return (b : bool)
  | Raise (exn : Exception).

(** [pydicom.dcmread(path)]: a missing file is an I/O error, a file that is
    not DICOM raises [InvalidDicomError]. *)
Definition dcmread (w : World) (path : string) : Exception + FileDataset :=
  match files w !! path with
  | Some (DicomFile fd) => inr fd
  | Some OtherFile => inl InvalidDicomError
  | None => inl OSError
  end.

(** [vr in [...]] *)
Definition vr_in (vr : string) (l : list string) : bool :=
  existsb (String.eqb vr) l.

(** The fixed replacement that lines 81-88 assign, by VR; [None] for a VR
    that the chain sends to another branch. *)
Definition sentinel (vr : string) : option string :=
  if vr_in vr ["PN"; "SH"; "LO"; "ST"; "LT"] then Some "ANONYMIZED"
  else if String.eqb vr "DA" then Some "18000101"
  else if String.eqb vr "TM" then Some "000000"
  else if vr_in vr ["DS"; "IS"] then Some "0"
  else None.

(** ** Removal of private elements

    [Dataset.remove_private_tags] walks the dataset with [Dataset.walk]: the
    callback deletes an element whose tag is private from the dataset that
    holds it, and the walk goes on into every item of an element that is
    still there and whose VR is SQ. [walk_remove_private] is the walk inside
    one element, [remove_private_tags] the call of line 97. *)
Fixpoint walk_remove_private (e : DataElement) : DataElement :=
  match e with
  | Element vr (VSequence items) =>
      if String.eqb vr "SQ" then
        Element vr (VSequence (map
          (map_imap (λ (t : Tag) e',
             if is_private t then None else Some (walk_remove_private e')))
          items))
      else e
  | Element _ (VText _) => e
  end.

Definition remove_private_tags (ds : Dataset) : Dataset :=
  map_imap (λ (t : Tag) e,
    if is_private t then None else Some (walk_remove_private e)) ds.

(** No private element at any depth: in the dataset, nor in the items of its
    sequences. *)
Fixpoint elem_private_free (e : DataElement) : bool :=
  match e with
  | Element vr (VSequence items) =>
      if String.eqb vr "SQ" then
        forallb (λ d : Dataset,
          map_fold (λ (t : Tag) e' acc,
            negb (is_private t) && elem_private_free e' && acc) true d) items
      else true
  | Element _ (VText _) => true
  end.

Definition private_free (ds : Dataset) : bool :=
  map_fold (λ (t : Tag) e acc,
    negb (is_private t) && elem_private_free e && acc) true ds.

(** The number of elements nested in an element, for induction on the
    nesting. *)
Fixpoint elem_size (e : DataElement) : nat :=
  match e with
  | Element _ (VSequence items) =>
      S (list_sum (map (λ d : Dataset,
           map_fold (λ (_ : Tag) e' acc, elem_size e' + acc) 0 d) items))
  | Element _ (VText _) => 0
  end.

Definition dataset_size (ds : Dataset) : nat :=
  map_fold (λ (_ : Tag) e acc, elem_size e + acc) 0 ds.

(** Two datasets hold the same elements, but for UI elements that both
    hold with values of their own. *)
Definition same_up_to_uid (ds1 ds2 : Dataset) : Prop :=
  ∀ t : Tag,
    ds1 !! t = ds2 !! t
    ∨ ∃ v1 v2, ds1 !! t = Some (Element "UI" v1)
               ∧ ds2 !! t = Some (Element "UI" v2).

(** Whether the dataset holds an element of VR UI under the tag. *)
Definition holds_uid (ds : Dataset) (t : Tag) : bool :=
  match ds !! t with
  | Some e => String.eqb (VR e) "UI"
  | None => false
  end.

(** * The application around the engine *)

(** ** The catalog of tags (lines 14-60) *)

(** The dictionary of lines 14-55, in its order. *)
Definition TAGS_TO_ANONYMIZE_BY_GROUP : list (string * list Tag) :=
  [ ("Patient Information",
     [ (0x0010, 0x0010); (0x0010, 0x0020); (0x0010, 0x0021);
       (0x0010, 0x0030); (0x0010, 0x0032); (0x0010, 0x0040);
       (0x0010, 0x1000); (0x0010, 0x1001); (0x0010, 0x1002);
       (0x0010, 0x1010); (0x0010, 0x1020); (0x0010, 0x1030);
       (0x0010, 0x1040); (0x0010, 0x2160); (0x0010, 0x2180);
       (0x0010, 0x21B0); (0x0010, 0x4000) ]);
    ("Physician Information",
     [ (0x0008, 0x0080); (0x0008, 0x0081); (0x0008, 0x0090);
       (0x0008, 0x0092); (0x0008, 0x0094); (0x0008, 0x1050);
       (0x0008, 0x1070) ]);
    ("Study Information",
     [ (0x0008, 0x1030); (0x0008, 0x0050); (0x0032, 0x1032) ]);
    ("Equipment Information", [ (0x0008, 0x1010) ]);
    ("UIDs",
     [ (0x0020, 0x000D); (0x0020, 0x000E); (0x0008, 0x0018);
       (0x0020, 0x0052) ]) ]%N.

(** Lines 58-60: the tags of all groups, in one list. *)
Definition ALL_TAGS_TO_ANONYMIZE : list Tag :=
  flat_map snd TAGS_TO_ANONYMIZE_BY_GROUP.

(** ** The state of the checkboxes (lines 135-170)

    The session state of the application maps keys to the values of its
    widgets. The checkbox of a tag has the key [f"tag_{tag}"], the text
    "tag_" followed by the tuple as Python prints it; the checkbox that
    selects or deselects all has the key "select_all_checkbox". A checkbox
    with a key shows, and returns, the value that the session state holds
    under the key, and is unchecked when the state holds none. *)

Definition tag_key (tag : Tag) : string :=
  "tag_(" +:+ pretty tag.1 +:+ ", " +:+ pretty tag.2 +:+ ")".

Abbreviation SessionState := (gmap string bool).

(** Lines 137-139: a tag without a state gets the state [True]. *)
Definition init_session_state (session_state : SessionState)
  : SessionState :=
  fold_left
    (λ ss tag,
       match ss !! tag_key tag with
       | None => <[tag_key tag := true]> ss
       | Some _ => ss
       end)
    ALL_TAGS_TO_ANONYMIZE session_state.

(** Lines 143-146; [None] when the state holds no value for the checkbox
    itself, where the attribute access raises. *)
Definition select_all_callback (session_state : SessionState)
  : option SessionState :=
  match session_state !! "select_all_checkbox" with
  | None => None
  | Some select_all_state =>
      Some (fold_left (λ ss tag, <[tag_key tag := select_all_state]> ss)
              ALL_TAGS_TO_ANONYMIZE session_state)
  end.

(** [all(st.session_state[key] for ...)]: the first state that is [False]
    ends the iteration; a key that is reached and missing raises
    [KeyError], which is [None] here. *)
Fixpoint all_checked (session_state : SessionState) (tags : list Tag)
  : option bool :=
  match tags with
  | [] => Some true
  | tag :: rest =>
      match session_state !! tag_key tag with
      | None => None
      | Some false => Some false
      | Some true => all_checked session_state rest
      end
  end.

(** Line 150. *)
Definition all_selected (session_state : SessionState) : option bool :=
  all_checked session_state ALL_TAGS_TO_ANONYMIZE.

(** The value of [st.checkbox(..., key=f"tag_{tag}")] at line 168. *)
Definition is_checked (session_state : SessionState) (tag : Tag) : bool :=
  default false (session_state !! tag_key tag).

(** Lines 162-170: the checked tags, group after group. *)
Definition selected_tags (session_state : SessionState) : list Tag :=
  flat_map
    (λ group : string * list Tag,
       filter (λ tag, is_checked session_state tag = true) group.2)
    TAGS_TO_ANONYMIZE_BY_GROUP.

(** ** Paths and the scan of the directory (lines 182-191) *)

(** [s.startswith(prefix)] *)
Definition startswith (s prefix : string) : bool := String.prefix prefix s.

(** [s.endswith("/")] *)
Fixpoint endswith_sep (s : string) : bool :=
  match s with
  | "" => false
  | String c rest =>
      match rest with
      | "" => Ascii.eqb c "/"%char
      | String _ _ => endswith_sep rest
      end
  end.

(** Whether the text holds the separator "/". *)
Fixpoint has_sep (s : string) : bool :=
  match s with
  | "" => false
  | String c rest => Ascii.eqb c "/"%char || has_sep rest
  end.

(** [os.path.join(a, b)], as [posixpath] has it for two arguments. *)
Definition os_path_join (a b : string) : string :=
  if startswith b "/" then b
  else if String.eqb a "" || endswith_sep a then a +:+ b
  else a +:+ "/" +:+ b.

(** Lines 185-191, on the triples (root, directories, files) that
    [os.walk(input_dir)] yields: the files of every root that does not
    start with the output directory. *)
Definition files_to_process (output_dir : string)
    (walk : list (string * list string * list string)) : list string :=
  flat_map
    (λ entry : string * list string * list string,
       let '(root, _, files) := entry in
       if startswith root output_dir then []
       else map (os_path_join root) files)
    walk.

(** Whether the file system holds a DICOM file under the path. *)
Definition is_dicom_file (w : World) (path : string) : bool :=
  match files w !! path with
  | Some (DicomFile _) => true
  | _ => false
  end.

(** What the page shows after a click on the button (lines 178-223). *)
Inductive Message : Type :=
  | Warning_select_a_tag
  | Warning_no_files_found
  | Success_found (n : nat)
  | Success_complete (anonymized_count : nat) (output_dir : string)
  | Error_not_a_directory.

(** * Sample files

    A scan with identifying elements, a private element and a sequence
    whose item holds a private element; a DICOMDIR, whose dataset has no SOP
    Instance UID; a scan whose SOP Instance UID is stored with a binary VR;
    a text file. *)

(** A generator under the root 2.25, one identifier per draw. *)
Definition sample_uid_stream (n : nat) : string := "2.25." +:+ pretty n.

(** The assignment of the empty value is rejected for the fixed-width
    binary VRs. *)
Definition sample_rejects_empty (_ : Tag) (e : DataElement) : bool :=
  vr_in (VR e) ["US"; "SS"; "UL"; "SL"; "FL"; "FD"; "AT"].

Definition sample_unwritable (_ : string) : bool := false.

Definition sample_item : Dataset :=
  {[ (0x0009, 0x0010)%N := Element "LO" (VText "VENDOR");
     (0x0040, 0x1001)%N := Element "SH" (VText "REQ7") ]}.

Definition sample_sequence : DataElement :=
  Element "SQ" (VSequence [sample_item]).

Definition sample_dataset : Dataset :=
  {[ (0x0008, 0x0018)%N := Element "UI" (VText "1.2.840.1.1");
     (0x0009, 0x0010)%N := Element "LO" (VText "VENDOR");
     (0x0010, 0x0010)%N := Element "PN" (VText "Jane Doe");
     (0x0010, 0x0030)%N := Element "DA" (VText "19850604");
     (0x0010, 0x0032)%N := Element "TM" (VText "093000");
     (0x0010, 0x0040)%N := Element "CS" (VText "F");
     (0x0010, 0x1030)%N := Element "DS" (VText "61.5");
     (0x0020, 0x000D)%N := Element "UI" (VText "1.2.840.1.2");
     (0x0028, 0x0010)%N := Element "US" (VText "512");
     (0x0040, 0x0275)%N := sample_sequence ]}.

Definition sample_file_meta : Dataset :=
  {[ (0x0002, 0x0003)%N := Element "UI" (VText "1.2.840.9.9");
     (0x0002, 0x0010)%N := Element "UI" (VText "1.2.840.10008.1.2.1") ]}.

Definition sample_file : FileDataset :=
  mkFileDataset sample_dataset sample_file_meta.

Definition sample_dicomdir : FileDataset :=
  mkFileDataset
    {[ (0x0004, 0x1130)%N := Element "CS" (VText "DISK1");
       (0x0004, 0x1200)%N := Element "UL" (VText "398") ]}
    {[ (0x0002, 0x0003)%N := Element "UI" (VText "1.2.840.7.7") ]}.

Definition sample_binary_uid_file : FileDataset :=
  mkFileDataset
    {[ (0x0008, 0x0018)%N := Element "UL" (VText "7");
       (0x0010, 0x0010)%N := Element "PN" (VText "Jane Doe") ]}
    {[ (0x0002, 0x0003)%N := Element "UI" (VText "1.2.840.8.8") ]}.

Definition sample_world : World :=
  mkWorld 0 []
    {[ "in/scan.dcm" := DicomFile sample_file;
       "in/DICOMDIR" := DicomFile sample_dicomdir;
       "in/binary.dcm" := DicomFile sample_binary_uid_file;
       "in/notes.txt" := OtherFile ]}.

(** Patient's name, ID (absent from the scan), birth date, birth time, sex
    and weight, the study and SOP instance UIDs, and the rows. *)
Definition sample_selection : list Tag :=
  [ (0x0010, 0x0010); (0x0010, 0x0020); (0x0010, 0x0030); (0x0010, 0x0032);
    (0x0010, 0x0040); (0x0010, 0x1030); (0x0020, 0x000D); (0x0008, 0x0018);
    (0x0028, 0x0010) ]%N.

(** A second generator, under another root. *)
Definition other_uid_stream (n : nat) : string := "1.2.826.0.1." +:+ pretty n.

(** The identifiers of [sample_uid_stream] start with its root. *)
Definition under_sample_root (uid : string) : Prop :=
  ∃ rest : string, uid = "2.25." +:+ rest.

(** A directory "/data" with a text file and a scan, a sub-directory with a
    scan, the output directory of an earlier run, and a directory beside
    it whose name starts like its name. *)
Definition sample_os_walk (_ : string)
  : list (string * list string * list string) :=
  [ ("/data", ["anonymized"; "anonymized_old"; "sub"],
     ["notes.txt"; "scan.dcm"]);
    ("/data/anonymized", [], ["scan.dcm"]);
    ("/data/anonymized_old", [], ["old.dcm"]);
    ("/data/sub", [], ["b.dcm"]) ].

Definition sample_isdir (path : string) : bool := String.eqb path "/data".

(** The relative path of a file below [start]: what follows [start] and
    the separator. *)
Definition sample_relpath (path start : string) : string :=
  String.substring (S (String.length start)) (String.length path) path.

Definition sample_directory : World :=
  mkWorld 0 []
    {[ "/data/notes.txt" := OtherFile;
       "/data/scan.dcm" := DicomFile sample_file;
       "/data/sub/b.dcm" := DicomFile sample_file;
       "/data/anonymized/scan.dcm" := DicomFile sample_file;
       "/data/anonymized_old/old.dcm" := DicomFile sample_file ]}.

(** The scan of [sample_os_walk] with the output directory
    "/data/anonymized". *)
Definition sample_scan : list string :=
  ["/data/notes.txt"; "/data/scan.dcm"; "/data/sub/b.dcm"].

(** * The engine *)

Section Engine.

(** pydicom's [generate_uid()] draws from a source of randomness: the
    stream of identifiers it yields, one per call. *)
Variable uid_stream : nat → string.

(** Whether [ds[tag].value = ""] raises [TypeError] for this element: the
    answer of the library, which the [try] of lines 90-94 asks for. *)
Variable rejects_empty : Tag → DataElement → bool.

(** Whether creating the output directory or writing the file fails
    (lines 104-109). *)
Variable unwritable : string → bool.

Definition generate_uid (w : World) : string * World :=
  (uid_stream (next_uid w),
   mkWorld (S (next_uid w)) (records w) (files w)).

(** The body of the loop at lines 75-94, for one selected tag. *)
Definition anonymize_tag (st : Dataset * World) (tag : Tag)
  : Dataset * World :=
  let '(ds, w) := st in
  match ds !! tag with
  | None => (ds, w)
  | Some e =>
      let vr := VR e in
      if String.eqb vr "UI" then
        let '(uid, w') := generate_uid w in
        (<[tag := set_value e (VText uid)]> ds, w')
      else if vr_in vr ["PN"; "SH"; "LO"; "ST"; "LT"] then
        (<[tag := set_value e (VText "ANONYMIZED")]> ds, w)
      else if String.eqb vr "DA" then
        (<[tag := set_value e (VText "18000101")]> ds, w)
      else if String.eqb vr "TM" then
        (<[tag := set_value e (VText "000000")]> ds, w)
      else if vr_in vr ["DS"; "IS"] then
        (<[tag := set_value e (VText "0")]> ds, w)
      else if rejects_empty tag e then
        (delete tag ds, log_record (Warning_could_not_blank tag) w)
      else
        (<[tag := set_value e (VText "")]> ds, w)
  end.

(** Lines 75-94: the loop over the selection, in its order. *)
Definition anonymize_tags (tags_to_anonymize : list Tag)
    (st : Dataset * World) : Dataset * World :=
  fold_left anonymize_tag tags_to_anonymize st.

(** Lines 75-97: the rewrite of the selected tags, then the removal of the
    private ones. *)
Definition rewrite_pass (tags_to_anonymize : list Tag)
    (st : Dataset * World) : Dataset * World :=
  let '(ds, w) := anonymize_tags tags_to_anonymize st in
  (remove_private_tags ds, w).

(** Lines 100-101: [ds.SOPInstanceUID] raises [AttributeError] when the
    dataset has no such element. *)
Definition sync_file_meta (ds meta : Dataset) : Exception + Dataset :=
  match meta !! MediaStorageSOPInstanceUID with
  | Some m =>
      match ds !! SOPInstanceUID with
      | Some e => inr (<[MediaStorageSOPInstanceUID := set_value m (value e)]> meta)
      | None => inl AttributeError
      end
  | None => inr meta
  end.

(** Lines 63-111. The result is what the call returns or raises; the world
    after the call holds the log and the files. *)
Definition anonymize_dicom_file (input_path output_path : string)
    (tags_to_anonymize : list Tag) (w : World) : Result * World :=
  match dcmread w input_path with
  | inl InvalidDicomError =>
      (Return false, log_record (Warning_skipping_non_dicom input_path) w)
  | inl exn => (Raise exn, w)
  | inr fd =>
      let '(ds, w1) := rewrite_pass tags_to_anonymize (dataset fd, w) in
      match sync_file_meta ds (file_meta fd) with
      | inl exn => (Raise exn, w1)
      | inr meta =>
          if unwritable output_path then (Raise OSError, w1)
          else
            (Return true,
             log_record (Info_anonymized input_path output_path)
               (write_file output_path
                  (DicomFile (mkFileDataset ds meta)) w1))
      end
  end.

(** ** The batch over a directory (lines 178-223) *)

(** [os.path.relpath], [os.walk] and [os.path.isdir], as the file system
    answers them. *)
Variable os_path_relpath : string → string → string.
Variable os_walk : string → list (string * list string * list string).
Variable os_path_isdir : string → bool.

(** Lines 202-214: the loop over the files found. An exception of a call
    is not caught: it ends the loop. The progress bar and the status text
    are left out. *)
Fixpoint process_files (input_dir output_dir : string)
    (selected : list Tag) (files : list string)
    (anonymized_count : nat) (w : World) : (Exception + nat) * World :=
  match files with
  | [] => (inr anonymized_count, w)
  | file_path :: rest =>
      let relative_path := os_path_relpath file_path input_dir in
      let output_file_path := os_path_join output_dir relative_path in
      match anonymize_dicom_file file_path output_file_path selected w with
      | (Return true, w') =>
          process_files input_dir output_dir selected rest
            (S anonymized_count) w'
      | (Return false, w') =>
          process_files input_dir output_dir selected rest
            anonymized_count w'
      | (Raise exn, w') => (inl exn, w')
      end
  end.

(** Lines 178-223: the click on "Anonymize Directory", with the messages
    that the page shows, or the exception that ends the script run. *)
Definition anonymize_directory (selected : list Tag) (input_dir : string)
    (w : World) : (Exception + list Message) * World :=
  match selected with
  | [] => (inr [Warning_select_a_tag], w)
  | _ :: _ =>
      if negb (String.eqb input_dir "") && os_path_isdir input_dir then
        let output_dir := os_path_join input_dir "anonymized" in
        let files := files_to_process output_dir (os_walk input_dir) in
        match files with
        | [] => (inr [Warning_no_files_found], w)
        | _ :: _ =>
            match process_files input_dir output_dir selected files 0 w with
            | (inr anonymized_count, w') =>
                (inr [Success_found (length files);
                      Success_complete anonymized_count output_dir], w')
            | (inl exn, w') => (inl exn, w')
            end
        end
      else (inr [Error_not_a_directory], w)
  end.

(** What the loop leaves under a selected tag that held [e], when the
    identifiers drawn meanwhile are those from [lo] up to [hi]: a drawn
    identifier for UI, the fixed replacement for the VRs that have one,
    and otherwise the empty value or no element at all. *)
Definition rewritten (lo hi : nat) (e : DataElement)
    (o : option DataElement) : Prop :=
  if String.eqb (VR e) "UI" then
    ∃ k, lo ≤ k < hi ∧ o = Some (set_value e (VText (uid_stream k)))
  else
    match sentinel (VR e) with
    | Some s => o = Some (set_value e (VText s))
    | None => o = None ∨ o = Some (set_value e (VText ""))
    end.

(** * Nested datasets: folds and induction *)

Section NestedDatasets.

Lemma map_fold_andb_true (p : Tag → DataElement → bool) (ds : Dataset) :
  map_fold (λ t e acc, p t e && acc) true ds = true
  ↔ map_Forall (λ t e, p t e = true) ds.
Proof.
  apply (map_fold_weak_ind
           (λ r m, r = true ↔ map_Forall (λ t e, p t e = true) m)).
  - split; [intros _; apply map_Forall_empty | done].
  - intros t e m r Hfresh IH.
    rewrite andb_true_iff, IH, map_Forall_insert by done. done.
Qed.

Lemma private_free_lookup (ds : Dataset) :
  private_free ds = true
  ↔ ∀ t e, ds !! t = Some e →
      is_private t = false ∧ elem_private_free e = true.
Proof.
  unfold private_free.
  rewrite (map_fold_andb_true
             (λ t e, negb (is_private t) && elem_private_free e)).
  unfold map_Forall. split; intros H t e Hte; specialize (H t e Hte).
  - apply andb_true_iff in H as [H1 H2].
    by apply negb_true_iff in H1.
  - destruct H as [-> ->]. done.
Qed.

Lemma elem_private_free_SQ (vr : string) (items : list Dataset) :
  elem_private_free (Element vr (VSequence items))
  = if String.eqb vr "SQ" then forallb private_free items else true.
Proof. done. Qed.

Lemma walk_remove_private_SQ (vr : string) (items : list Dataset) :
  walk_remove_private (Element vr (VSequence items))
  = if String.eqb vr "SQ"
    then Element vr (VSequence (map remove_private_tags items))
    else Element vr (VSequence items).
Proof. done. Qed.

Lemma elem_size_lookup (ds : Dataset) (t : Tag) (e : DataElement) :
  ds !! t = Some e → elem_size e ≤ dataset_size ds.
Proof.
  revert t e. unfold dataset_size.
  apply (map_fold_weak_ind
           (λ r (m : Dataset), ∀ t e, m !! t = Some e → elem_size e ≤ r)).
  - intros t e. by rewrite lookup_empty.
  - intros i x m r Hfresh IH t e.
    rewrite lookup_insert. case_decide as Hit.
    + intros [= <-]. lia.
    + intros Hte. specialize (IH t e Hte). lia.
Qed.

Lemma dataset_size_elem_of (items : list Dataset) (d : Dataset) :
  d ∈ items → dataset_size d ≤ list_sum (map dataset_size items).
Proof.
  induction 1 as [d l | d d' l _ IH]; simpl; lia.
Qed.

(** Induction on the nesting of sequences: a property of elements holds of
    every element when it holds of a sequence as soon as it holds of all
    elements of all its items. *)
Lemma DataElement_nested_ind (P : DataElement → Prop) :
  (∀ vr s, P (Element vr (VText s))) →
  (∀ vr items,
     Forall (map_Forall (λ _ : Tag, P)) items →
     P (Element vr (VSequence items))) →
  ∀ e, P e.
Proof.
  intros Htext Hseq e.
  remember (elem_size e) as n eqn:Hn. revert e Hn.
  induction (lt_wf n) as [n _ IH]. intros e Hn.
  destruct e as [vr [s | items]]; [apply Htext |].
  apply Hseq, Forall_forall. intros d Hd t e' Hte'.
  eapply IH; [| reflexivity]. subst n.
  pose proof (elem_size_lookup _ _ _ Hte').
  pose proof (dataset_size_elem_of _ _ Hd) as Hle.
  change (elem_size (Element vr (VSequence items)))
    with (S (list_sum (map dataset_size items))). lia.
Qed.

End NestedDatasets.

(** * The removal of private elements *)

Section RemovePrivate.

Lemma remove_private_tags_lookup (ds : Dataset) (t : Tag) :
  remove_private_tags ds !! t
  = if is_private t then None else walk_remove_private <$> ds !! t.
Proof.
  unfold remove_private_tags. rewrite map_lookup_imap.
  destruct (ds !! t) as [e |]; simpl; by destruct (is_private t).
Qed.

Lemma remove_private_tags_lookup_Some (ds : Dataset) (t : Tag) e' :
  remove_private_tags ds !! t = Some e'
  ↔ is_private t = false
    ∧ ∃ e, ds !! t = Some e ∧ e' = walk_remove_private e.
Proof.
  rewrite remove_private_tags_lookup.
  destruct (is_private t).
  { split; [done | by intros [? _]]. }
  destruct (ds !! t) as [e |]; simpl; split.
  - intros [= <-]. eauto.
  - by intros (_ & e0 & [= <-] & ->).
  - done.
  - by intros (_ & e0 & ? & _).
Qed.

Lemma VR_walk_remove_private (e : DataElement) :
  VR (walk_remove_private e) = VR e.
Proof.
  destruct e as [vr [s | items]]; [done |].
  rewrite walk_remove_private_SQ. by destruct (String.eqb vr "SQ").
Qed.

Lemma walk_remove_private_not_SQ (e : DataElement) :
  VR e ≠ "SQ" → walk_remove_private e = e.
Proof.
  destruct e as [vr [s | items]]; [done |]. simpl VR. intros Hvr.
  rewrite walk_remove_private_SQ.
  by apply String.eqb_neq in Hvr as ->.
Qed.

Lemma walk_remove_private_text (e : DataElement) (s : string) :
  value e = VText s → walk_remove_private e = e.
Proof. destruct e as [vr [s' | items]]; by intros [=]. Qed.

Lemma private_free_remove_private_tags_aux (d : Dataset) :
  map_Forall (λ (_ : Tag) e,
    elem_private_free (walk_remove_private e) = true) d →
  private_free (remove_private_tags d) = true.
Proof.
  intros Hd. apply private_free_lookup. intros t e'.
  rewrite remove_private_tags_lookup_Some.
  intros (Ht & e & Hte & ->). split; [done |]. by apply (Hd t).
Qed.

(** After the walk, no element nested in [e] is private. *)
Lemma elem_private_free_walk (e : DataElement) :
  elem_private_free (walk_remove_private e) = true.
Proof.
  induction e as [vr s | vr items IH] using DataElement_nested_ind;
    [done |].
  rewrite walk_remove_private_SQ.
  destruct (String.eqb vr "SQ") eqn:Hvr;
    rewrite elem_private_free_SQ, Hvr; [| done].
  apply forallb_forall. intros d' Hd'.
  apply in_map_iff in Hd' as (d & <- & Hd).
  apply private_free_remove_private_tags_aux.
  rewrite Forall_forall in IH. apply IH. by apply list_elem_of_In.
Qed.

(** No private element survives [remove_private_tags], at any depth. *)
Lemma private_free_remove_private_tags (ds : Dataset) :
  private_free (remove_private_tags ds) = true.
Proof.
  apply private_free_remove_private_tags_aux.
  intros t e _. apply elem_private_free_walk.
Qed.

Lemma remove_private_tags_id_aux (d : Dataset) :
  map_Forall (λ (_ : Tag) e,
    elem_private_free e = true → walk_remove_private e = e) d →
  private_free d = true → remove_private_tags d = d.
Proof.
  intros Hd Hfree. apply map_eq. intros t.
  rewrite remove_private_tags_lookup.
  rewrite private_free_lookup in Hfree.
  destruct (d !! t) as [e |] eqn:Hte.
  - destruct (Hfree t e Hte) as [-> He]. simpl.
    by rewrite (Hd t e Hte He).
  - by destruct (is_private t).
Qed.

(** The walk leaves an element without nested private elements as it is. *)
Lemma walk_remove_private_id (e : DataElement) :
  elem_private_free e = true → walk_remove_private e = e.
Proof.
  induction e as [vr s | vr items IH] using DataElement_nested_ind;
    [done |].
  rewrite walk_remove_private_SQ, elem_private_free_SQ.
  destruct (String.eqb vr "SQ"); [| done].
  intros Hall. do 2 f_equal.
  rewrite forallb_forall in Hall. rewrite Forall_forall in IH.
  clear vr. induction items as [| d items IHitems]; [done |].
  simpl. f_equal.
  - apply remove_private_tags_id_aux.
    + apply IH. by left.
    + apply Hall. by left.
  - apply IHitems.
    + intros d' Hd'. apply IH. by right.
    + intros d' Hd'. apply Hall. by right.
Qed.

Lemma remove_private_tags_id (ds : Dataset) :
  private_free ds = true → remove_private_tags ds = ds.
Proof.
  apply remove_private_tags_id_aux.
  intros t e _. apply walk_remove_private_id.
Qed.

Lemma remove_private_tags_idemp (ds : Dataset) :
  remove_private_tags (remove_private_tags ds) = remove_private_tags ds.
Proof.
  apply remove_private_tags_id, private_free_remove_private_tags.
Qed.

End RemovePrivate.

(** * The rewrite of the selected tags *)

Section RewriteLoop.

(** The chain of tests of the loop body, by the class of the VR. *)
Lemma anonymize_tag_unfold (ds : Dataset) (w : World) (tag : Tag) :
  anonymize_tag (ds, w) tag
  = match ds !! tag with
    | None => (ds, w)
    | Some e =>
        if String.eqb (VR e) "UI" then
          (<[tag := set_value e (VText (uid_stream (next_uid w)))]> ds,
           mkWorld (S (next_uid w)) (records w) (files w))
        else
          match sentinel (VR e) with
          | Some s => (<[tag := set_value e (VText s)]> ds, w)
          | None =>
              if rejects_empty tag e then
                (delete tag ds, log_record (Warning_could_not_blank tag) w)
              else (<[tag := set_value e (VText "")]> ds, w)
          end
    end.
Proof.
  unfold anonymize_tag, sentinel. destruct (ds !! tag) as [e |]; [| done].
  cbn zeta. unfold generate_uid. destruct (String.eqb (VR e) "UI"); [done |].
  destruct (vr_in (VR e) ["PN"; "SH"; "LO"; "ST"; "LT"]); [done |].
  destruct (String.eqb (VR e) "DA"); [done |].
  destruct (String.eqb (VR e) "TM"); [done |].
  by destruct (vr_in (VR e) ["DS"; "IS"]).
Qed.

Lemma anonymize_tag_absent (ds : Dataset) (w : World) (tag : Tag) :
  ds !! tag = None → anonymize_tag (ds, w) tag = (ds, w).
Proof. intros H. by rewrite anonymize_tag_unfold, H. Qed.

Lemma anonymize_tag_other (ds : Dataset) (w : World) (tag t : Tag) :
  tag ≠ t → (anonymize_tag (ds, w) tag).1 !! t = ds !! t.
Proof.
  intros Hne. rewrite anonymize_tag_unfold.
  destruct (ds !! tag) as [e |]; [| done].
  destruct (String.eqb (VR e) "UI"); simpl;
    [by rewrite lookup_insert_ne |].
  destruct (sentinel (VR e)); simpl; [by rewrite lookup_insert_ne |].
  destruct (rejects_empty tag e); simpl;
    [by rewrite lookup_delete_ne | by rewrite lookup_insert_ne].
Qed.

(** A step creates no element and changes no VR. *)
Lemma anonymize_tag_VR (ds : Dataset) (w : World) (tag t : Tag) e' :
  (anonymize_tag (ds, w) tag).1 !! t = Some e' →
  ∃ e, ds !! t = Some e ∧ VR e' = VR e.
Proof.
  destruct (decide (tag = t)) as [-> | Hne];
    [| rewrite anonymize_tag_other by done; eauto].
  rewrite anonymize_tag_unfold.
  destruct (ds !! t) as [e |] eqn:Hte; [| simpl; by rewrite Hte].
  destruct (String.eqb (VR e) "UI"); simpl.
  { rewrite lookup_insert_eq. intros [= <-]. eauto. }
  destruct (sentinel (VR e)); simpl.
  { rewrite lookup_insert_eq. intros [= <-]. eauto. }
  destruct (rejects_empty t e); simpl.
  - by rewrite lookup_delete_eq.
  - rewrite lookup_insert_eq. intros [= <-]. eauto.
Qed.

Lemma anonymize_tag_world (ds : Dataset) (w : World) (tag : Tag) :
  let w' := (anonymize_tag (ds, w) tag).2 in
  next_uid w ≤ next_uid w' ∧ files w' = files w
  ∧ ∃ l, records w' = records w ++ l.
Proof.
  rewrite anonymize_tag_unfold.
  destruct (ds !! tag) as [e |]; simpl.
  2: { split_and!; [lia | done | exists []; by rewrite app_nil_r]. }
  destruct (String.eqb (VR e) "UI"); simpl.
  { split_and!; [lia | done | exists []; by rewrite app_nil_r]. }
  destruct (sentinel (VR e)); simpl.
  { split_and!; [lia | done | exists []; by rewrite app_nil_r]. }
  destruct (rejects_empty tag e); simpl.
  - split_and!; [lia | done | by eexists].
  - split_and!; [lia | done | exists []; by rewrite app_nil_r].
Qed.

Lemma anonymize_tags_snoc (l : list Tag) (tag : Tag) st :
  anonymize_tags (l ++ [tag]) st = anonymize_tag (anonymize_tags l st) tag.
Proof. unfold anonymize_tags. by rewrite fold_left_app. Qed.

Lemma anonymize_tags_cons (l : list Tag) (tag : Tag) st :
  anonymize_tags (tag :: l) st = anonymize_tags l (anonymize_tag st tag).
Proof. done. Qed.

Lemma anonymize_tags_VR (l : list Tag) (ds : Dataset) (w : World)
    (t : Tag) e' :
  (anonymize_tags l (ds, w)).1 !! t = Some e' →
  ∃ e, ds !! t = Some e ∧ VR e' = VR e.
Proof.
  revert ds w e'. induction l as [| a l IH]; intros ds w e'; [eauto |].
  rewrite anonymize_tags_cons.
  destruct (anonymize_tag (ds, w) a) as [ds1 w1] eqn:Hstep.
  intros (e1 & H1 & Hvr)%IH.
  assert ((anonymize_tag (ds, w) a).1 !! t = Some e1) as H
    by by rewrite Hstep.
  apply anonymize_tag_VR in H as (e & ? & ?). exists e. split; congruence.
Qed.

Lemma anonymize_tags_absent (l : list Tag) (ds : Dataset) (w : World)
    (t : Tag) :
  ds !! t = None → (anonymize_tags l (ds, w)).1 !! t = None.
Proof.
  intros Hnone.
  destruct ((anonymize_tags l (ds, w)).1 !! t) as [e' |] eqn:H; [| done].
  apply anonymize_tags_VR in H as (e & ? & _). congruence.
Qed.

Lemma anonymize_tags_not_selected (l : list Tag) (ds : Dataset)
    (w : World) (t : Tag) :
  t ∉ l → (anonymize_tags l (ds, w)).1 !! t = ds !! t.
Proof.
  revert ds w. induction l as [| a l IH]; intros ds w Hnotin; [done |].
  apply not_elem_of_cons in Hnotin as [Hne Hnotin].
  rewrite anonymize_tags_cons.
  destruct (anonymize_tag (ds, w) a) as [ds1 w1] eqn:Hstep.
  rewrite IH by done.
  change ds1 with (ds1, w1).1. rewrite <- Hstep.
  by apply anonymize_tag_other.
Qed.

Lemma anonymize_tags_world (l : list Tag) (ds : Dataset) (w : World) :
  let w' := (anonymize_tags l (ds, w)).2 in
  next_uid w ≤ next_uid w' ∧ files w' = files w
  ∧ ∃ rs, records w' = records w ++ rs.
Proof.
  revert ds w. induction l as [| a l IH]; intros ds w; cbn zeta.
  { split_and!; [done | done | exists []; by rewrite app_nil_r]. }
  rewrite anonymize_tags_cons.
  pose proof (anonymize_tag_world ds w a) as (Hn & Hf & rs1 & Hr).
  destruct (anonymize_tag (ds, w) a) as [ds1 w1]. cbn [snd] in Hn, Hf, Hr.
  destruct (IH ds1 w1) as (Hn' & Hf' & rs2 & Hr').
  split_and!; [lia | congruence |].
  exists (rs1 ++ rs2). rewrite Hr', Hr. by rewrite app_assoc.
Qed.

Lemma rewritten_mono (lo hi hi' : nat) e o :
  hi ≤ hi' → rewritten lo hi e o → rewritten lo hi' e o.
Proof.
  unfold rewritten. intros Hle.
  destruct (String.eqb (VR e) "UI"); [| done].
  intros (k & Hk & ->). exists k. split; [lia | done].
Qed.

Lemma set_value_VR (e1 e : DataElement) (v : Value) :
  VR e1 = VR e → set_value e1 v = set_value e v.
Proof. unfold set_value. by intros ->. Qed.

(** One step at a tag whose element has the VR of [e]. *)
Lemma anonymize_tag_rewritten (ds : Dataset) (w : World) (t : Tag) e1 e :
  ds !! t = Some e1 → VR e1 = VR e →
  rewritten (next_uid w) (next_uid (anonymize_tag (ds, w) t).2) e
    ((anonymize_tag (ds, w) t).1 !! t).
Proof.
  intros Hte Hvr. rewrite anonymize_tag_unfold, Hte. unfold rewritten.
  rewrite Hvr. destruct (String.eqb (VR e) "UI"); simpl.
  { exists (next_uid w). rewrite lookup_insert_eq.
    split; [lia | by rewrite (set_value_VR e1 e)]. }
  destruct (sentinel (VR e)); simpl.
  { by rewrite lookup_insert_eq, (set_value_VR e1 e). }
  destruct (rejects_empty t e1); simpl.
  - left. by rewrite lookup_delete_eq.
  - right. by rewrite lookup_insert_eq, (set_value_VR e1 e).
Qed.

Lemma rewritten_VR (lo hi : nat) e e' :
  rewritten lo hi e (Some e') → VR e' = VR e.
Proof.
  unfold rewritten. destruct (String.eqb (VR e) "UI").
  { by intros (k & _ & [= ->]). }
  destruct (sentinel (VR e)); [by intros [= ->] |].
  by intros [[=] | [= ->]].
Qed.

Lemma rewritten_None (lo hi : nat) e :
  rewritten lo hi e None →
  String.eqb (VR e) "UI" = false ∧ sentinel (VR e) = None.
Proof.
  unfold rewritten. destruct (String.eqb (VR e) "UI").
  { by intros (k & _ & [=]). }
  by destruct (sentinel (VR e)).
Qed.

(** The loop rewrites every selected tag that the dataset holds. *)
Lemma anonymize_tags_selected (l : list Tag) (ds : Dataset) (w : World)
    (t : Tag) e :
  t ∈ l → ds !! t = Some e →
  rewritten (next_uid w) (next_uid (anonymize_tags l (ds, w)).2) e
    ((anonymize_tags l (ds, w)).1 !! t).
Proof.
  intros Hin Hte. induction l as [| a l IH] using rev_ind.
  { by apply elem_of_nil in Hin. }
  rewrite anonymize_tags_snoc.
  pose proof (anonymize_tags_world l ds w) as (Hn & _).
  destruct (anonymize_tags l (ds, w)) as [ds1 w1] eqn:Hloop.
  cbn [fst snd] in IH, Hn.
  pose proof (anonymize_tag_world ds1 w1 a) as (Hn1 & _).
  assert (ds1 !! t = (anonymize_tags l (ds, w)).1 !! t) as Hds1
    by by rewrite Hloop.
  destruct (decide (a = t)) as [-> | Hne].
  - destruct (ds1 !! t) as [e1 |] eqn:Hte1.
    + symmetry in Hds1. apply anonymize_tags_VR in Hds1 as (e0 & He0 & Hvr).
      assert (e0 = e) as -> by congruence.
      pose proof (anonymize_tag_rewritten ds1 w1 t e1 e Hte1 Hvr) as Hrw.
      unfold rewritten in *. destruct (String.eqb (VR e) "UI"); [| done].
      destruct Hrw as (k & Hk & ->). exists k. split; [lia | done].
    + rewrite anonymize_tag_absent by done. cbn [fst snd]. rewrite Hte1.
      destruct (decide (t ∈ l)) as [Hl | Hl].
      * by apply IH.
      * rewrite anonymize_tags_not_selected in Hds1 by done. congruence.
  - apply elem_of_app in Hin as [Hl | Ha%list_elem_of_singleton];
      [| congruence].
    rewrite anonymize_tag_other by done.
    eapply rewritten_mono; [| by apply IH]. lia.
Qed.

(** A selected element whose blanking is rejected is gone after the loop,
    and the log holds the warning. *)
Lemma anonymize_tags_rejected (l : list Tag) (ds : Dataset) (w : World)
    (t : Tag) e :
  t ∈ l → ds !! t = Some e →
  String.eqb (VR e) "UI" = false → sentinel (VR e) = None →
  rejects_empty t e = true →
  (anonymize_tags l (ds, w)).1 !! t = None
  ∧ Warning_could_not_blank t ∈ records (anonymize_tags l (ds, w)).2.
Proof.
  intros Hin Hte Hui Hsent Hrej. revert ds w Hte.
  induction l as [| a l IH]; intros ds w Hte.
  { by apply elem_of_nil in Hin. }
  rewrite anonymize_tags_cons.
  destruct (decide (a = t)) as [-> | Hne].
  - rewrite anonymize_tag_unfold, Hte, Hui, Hsent, Hrej.
    split; [apply anonymize_tags_absent, lookup_delete_eq |].
    pose proof (anonymize_tags_world l (delete t ds)
                  (log_record (Warning_could_not_blank t) w))
      as (_ & _ & rs & ->).
    simpl. rewrite !elem_of_app, list_elem_of_singleton. auto.
  - apply elem_of_cons in Hin as [-> | Hin]; [done |].
    pose proof (anonymize_tag_other ds w a t Hne) as Hother.
    destruct (anonymize_tag (ds, w) a) as [ds1 w1]. cbn [fst] in Hother.
    apply IH; [done | congruence].
Qed.

End RewriteLoop.

(** * The per-file operation *)

Section PerFile.

Lemma rewrite_pass_unfold (l : list Tag) (ds : Dataset) (w : World) :
  rewrite_pass l (ds, w)
  = (remove_private_tags (anonymize_tags l (ds, w)).1,
     (anonymize_tags l (ds, w)).2).
Proof. unfold rewrite_pass. by destruct (anonymize_tags l (ds, w)). Qed.

Lemma dcmread_decoded (w : World) (path : string) (fd : FileDataset) :
  dcmread w path = inr fd ↔ files w !! path = Some (DicomFile fd).
Proof.
  unfold dcmread.
  destruct (files w !! path) as [[fd' |] |]; split; intros [=]; by subst.
Qed.

(** The call on a file that decodes: the rewrite, the synchronisation of
    the file meta, the write. *)
Lemma anonymize_dicom_file_decoded input_path output_path
    (l : list Tag) (w : World) (fd : FileDataset) :
  files w !! input_path = Some (DicomFile fd) →
  anonymize_dicom_file input_path output_path l w
  = let st := rewrite_pass l (dataset fd, w) in
    match sync_file_meta st.1 (file_meta fd) with
    | inl exn => (Raise exn, st.2)
    | inr meta =>
        if unwritable output_path then (Raise OSError, st.2)
        else
          (Return true,
           log_record (Info_anonymized input_path output_path)
             (write_file output_path
                (DicomFile (mkFileDataset st.1 meta)) st.2))
    end.
Proof.
  intros Hfd%dcmread_decoded. unfold anonymize_dicom_file. rewrite Hfd.
  by destruct (rewrite_pass l (dataset fd, w)).
Qed.

(** A call that returns [True] has decoded its input and written to the
    output path the rewritten dataset with the synchronised file meta. *)
Lemma anonymize_dicom_file_True input_path output_path
    (l : list Tag) (w w' : World) :
  anonymize_dicom_file input_path output_path l w = (Return true, w') →
  ∃ fd meta,
    files w !! input_path = Some (DicomFile fd)
    ∧ sync_file_meta (rewrite_pass l (dataset fd, w)).1 (file_meta fd)
      = inr meta
    ∧ unwritable output_path = false
    ∧ files w' !! output_path
      = Some (DicomFile
                (mkFileDataset (rewrite_pass l (dataset fd, w)).1 meta)).
Proof.
  destruct (files w !! input_path) as [[fd |] |] eqn:Hfile.
  - rewrite (anonymize_dicom_file_decoded _ _ _ _ fd Hfile). cbn zeta.
    destruct (sync_file_meta _ _) as [exn | meta] eqn:Hsync; [done |].
    destruct (unwritable output_path) eqn:Hw; [done |].
    intros [= <-]. exists fd, meta. split_and!; try done.
    simpl. by rewrite lookup_insert_eq.
  - unfold anonymize_dicom_file, dcmread. by rewrite Hfile.
  - unfold anonymize_dicom_file, dcmread. by rewrite Hfile.
Qed.

(** The call returns [False] exactly when the input is not DICOM. *)
Lemma anonymize_dicom_file_False input_path output_path
    (l : list Tag) (w : World) :
  (anonymize_dicom_file input_path output_path l w).1 = Return false
  ↔ files w !! input_path = Some OtherFile.
Proof.
  destruct (files w !! input_path) as [[fd |] |] eqn:Hfile.
  - rewrite (anonymize_dicom_file_decoded _ _ _ _ fd Hfile). cbn zeta.
    destruct (sync_file_meta _ _); [done |].
    by destruct (unwritable output_path).
  - unfold anonymize_dicom_file, dcmread. by rewrite Hfile.
  - unfold anonymize_dicom_file, dcmread. by rewrite Hfile.
Qed.

Lemma sync_file_meta_inr (ds meta meta' : Dataset) m :
  meta !! MediaStorageSOPInstanceUID = Some m →
  sync_file_meta ds meta = inr meta' →
  ∃ e, ds !! SOPInstanceUID = Some e
       ∧ meta' = <[MediaStorageSOPInstanceUID := set_value m (value e)]> meta.
Proof.
  unfold sync_file_meta. intros ->.
  destruct (ds !! SOPInstanceUID) as [e |]; [| done].
  intros [= <-]. eauto.
Qed.

(** C1: when the file meta holds (0002,0003), in the file that a
    completed call has written the value of that element is the value of
    the dataset's (0008,0018) element, whatever the selection. *)
Theorem meta_uid_equals_dataset_uid input_path output_path
    (tags_to_anonymize : list Tag) (w w' : World) (fd : FileDataset) :
  files w !! input_path = Some (DicomFile fd) →
  is_Some (file_meta fd !! MediaStorageSOPInstanceUID) →
  anonymize_dicom_file input_path output_path tags_to_anonymize w
    = (Return true, w') →
  ∃ fd' m e,
    files w' !! output_path = Some (DicomFile fd')
    ∧ file_meta fd' !! MediaStorageSOPInstanceUID = Some m
    ∧ dataset fd' !! SOPInstanceUID = Some e
    ∧ value m = value e.
Proof.
  intros Hfile [m Hm] Hrun.
  apply anonymize_dicom_file_True in Hrun
    as (fd0 & meta & Hfile0 & Hsync & _ & Hout).
  assert (fd0 = fd) as -> by congruence.
  destruct (sync_file_meta_inr _ _ _ _ Hm Hsync) as (e & He & ->).
  eexists _, _, e. split; [exact Hout |]. simpl.
  by rewrite lookup_insert_eq.
Qed.

(** C2: the dataset that a call writes holds no private element, at any
    depth, whatever the selection. *)
Theorem no_private_element_survives input_path output_path
    (tags_to_anonymize : list Tag) (w w' : World) :
  anonymize_dicom_file input_path output_path tags_to_anonymize w
    = (Return true, w') →
  ∃ fd',
    files w' !! output_path = Some (DicomFile fd')
    ∧ private_free (dataset fd') = true
    ∧ ∀ t e, dataset fd' !! t = Some e → N.odd t.1 = false.
Proof.
  intros (fd & meta & _ & _ & _ & Hout)%anonymize_dicom_file_True.
  eexists. split; [exact Hout |]. simpl.
  rewrite rewrite_pass_unfold. simpl.
  split; [apply private_free_remove_private_tags |].
  intros t e Hte.
  by apply remove_private_tags_lookup_Some in Hte as [Hpriv _].
Qed.

(** C5: with (0002,0003) in the file meta and no (0008,0018) in the
    dataset, the call raises [AttributeError] and writes no file. *)
Theorem missing_sop_instance_uid_raises input_path output_path
    (tags_to_anonymize : list Tag) (w : World) (fd : FileDataset) :
  files w !! input_path = Some (DicomFile fd) →
  is_Some (file_meta fd !! MediaStorageSOPInstanceUID) →
  dataset fd !! SOPInstanceUID = None →
  ∃ w',
    anonymize_dicom_file input_path output_path tags_to_anonymize w
      = (Raise AttributeError, w')
    ∧ files w' = files w.
Proof.
  intros Hfile [m Hm] Hsop.
  rewrite (anonymize_dicom_file_decoded _ _ _ _ fd Hfile). cbn zeta.
  rewrite rewrite_pass_unfold. cbn [fst snd].
  unfold sync_file_meta. rewrite Hm.
  rewrite remove_private_tags_lookup.
  rewrite anonymize_tags_absent by done.
  destruct (is_private SOPInstanceUID); simpl;
    (eexists; split; [done |]);
    apply anonymize_tags_world.
Qed.

End PerFile.

(** * The VR rewrite policy *)

Section RewritePolicy.

Local Ltac solve_elem_of :=
  repeat first [apply list_elem_of_here | apply list_elem_of_further].



(** The VRs that have a fixed replacement are the nine of lines 81-88. *)
Lemma sentinel_is_Some (vr : string) :
  is_Some (sentinel vr)
  ↔ vr ∈ ["PN"; "SH"; "LO"; "ST"; "LT"; "DA"; "TM"; "DS"; "IS"].
Proof.
  split.
  - unfold sentinel, vr_in, existsb. intros [s Hs].
    repeat match type of Hs with
           | context [String.eqb vr ?x] =>
               destruct (String.eqb_spec vr x) as [-> | _];
               [solve_elem_of | simpl in Hs]
           end.
    done.
  - intros H.
    repeat (apply elem_of_cons in H as [-> | H]; [vm_compute; eauto |]).
    by apply elem_of_nil in H.
Qed.

Lemma sentinel_Some_not_UI_SQ (vr s : string) :
  sentinel vr = Some s →
  String.eqb vr "UI" = false ∧ vr ≠ "SQ".
Proof.
  intros H. split.
  - destruct (String.eqb_spec vr "UI") as [-> |]; [done | done].
  - intros ->. done.
Qed.

(** Outside the ten VRs of the chain, the sentinel is undefined. *)
Lemma sentinel_other (vr : string) :
  vr ∉ ["UI"; "PN"; "SH"; "LO"; "ST"; "LT"; "DA"; "TM"; "DS"; "IS"] →
  String.eqb vr "UI" = false ∧ sentinel vr = None.
Proof.
  intros H. split.
  - apply String.eqb_neq. intros ->. apply H. solve_elem_of.
  - destruct (sentinel vr) as [s |] eqn:Hs; [| done].
    assert (is_Some (sentinel vr)) as Hin%sentinel_is_Some by eauto.
    destruct H. by apply list_elem_of_further.
Qed.


(** Two selected UI elements never share a draw of the generator. *)
Lemma distinct_tags_distinct_draws (l : list Tag) (ds : Dataset)
    (w : World) (t1 t2 : Tag) e1 e2 :
  t1 ≠ t2 → t1 ∈ l → t2 ∈ l →
  ds !! t1 = Some e1 → ds !! t2 = Some e2 →
  VR e1 = "UI" → VR e2 = "UI" →
  ∃ k1 k2, k1 ≠ k2
    ∧ (anonymize_tags l (ds, w)).1 !! t1
      = Some (Element "UI" (VText (uid_stream k1)))
    ∧ (anonymize_tags l (ds, w)).1 !! t2
      = Some (Element "UI" (VText (uid_stream k2))).
Proof.
  intros Hne Hin1 Hin2 Ht1 Ht2 Hvr1 Hvr2.
  induction l as [| a l IH] using rev_ind.
  { by apply elem_of_nil in Hin1. }
  assert (∀ t e, t ≠ a → t ∈ l ++ [a] → ds !! t = Some e → VR e = "UI" →
            ∃ k, k < next_uid (anonymize_tags l (ds, w)).2
              ∧ (anonymize_tags (l ++ [a]) (ds, w)).1 !! t
                = Some (Element "UI" (VText (uid_stream k)))) as Hold.
  { intros t e Hta [Hl | Ha%list_elem_of_singleton]%elem_of_app Hte Hvr;
      [| done].
    pose proof (anonymize_tags_selected l ds w t e Hl Hte) as Hrw.
    unfold rewritten, set_value in Hrw. rewrite Hvr in Hrw.
    destruct Hrw as (k & Hk & Hlook). exists k. split; [lia |].
    rewrite anonymize_tags_snoc.
    destruct (anonymize_tags l (ds, w)) as [ds1 w1].
    by rewrite anonymize_tag_other. }
  assert (∀ e, ds !! a = Some e → VR e = "UI" →
            (anonymize_tags (l ++ [a]) (ds, w)).1 !! a
            = Some (Element "UI" (VText
                (uid_stream (next_uid (anonymize_tags l (ds, w)).2)))))
    as Hnew.
  { intros e Hae Hvr. rewrite anonymize_tags_snoc.
    assert (a ∈ l ++ [a]) as Hina
      by (apply elem_of_app; right; by apply list_elem_of_singleton).
    pose proof (anonymize_tags_selected (l ++ [a]) ds w a e Hina Hae)
      as Hrw.
    rewrite anonymize_tags_snoc in Hrw.
    destruct (anonymize_tags l (ds, w)) as [ds1 w1] eqn:Hloop.
    cbn [snd]. rewrite anonymize_tag_unfold in Hrw |- *.
    destruct (ds1 !! a) as [e' |] eqn:Hae'.
    - assert ((anonymize_tags l (ds, w)).1 !! a = Some e') as Hlk
        by by rewrite Hloop.
      apply anonymize_tags_VR in Hlk as (e0 & He0 & Hvr').
      assert (e0 = e) as -> by congruence.
      unfold set_value. rewrite Hvr', Hvr. simpl.
      by rewrite lookup_insert_eq.
    - cbn [fst snd] in Hrw. rewrite Hae' in Hrw.
      apply rewritten_None in Hrw as [Hui _].
      by rewrite Hvr in Hui. }
  destruct (decide (t1 = a)) as [-> | Hne1];
    [| destruct (decide (t2 = a)) as [-> | Hne2]].
  - destruct (Hold t2 e2) as (k2 & Hk2 & Hl2); try done.
    eexists _, k2. split; [| split; [by eapply Hnew | done]]. lia.
  - destruct (Hold t1 e1) as (k1 & Hk1 & Hl1); try done.
    eexists k1, _. split; [| split; [done | by eapply Hnew]]. lia.
  - destruct IH as (k1 & k2 & Hk & Hl1 & Hl2).
    + apply elem_of_app in Hin1 as [? | ?%list_elem_of_singleton]; done.
    + apply elem_of_app in Hin2 as [? | ?%list_elem_of_singleton]; done.
    + exists k1, k2. rewrite anonymize_tags_snoc.
      destruct (anonymize_tags l (ds, w)) as [ds1 w1].
      by rewrite !anonymize_tag_other.
Qed.

End RewritePolicy.

(** * What the rewrite leaves alone *)

Section Frame.

Lemma rewrite_pass_lookup (l : list Tag) (ds : Dataset) (w : World)
    (t : Tag) :
  (rewrite_pass l (ds, w)).1 !! t
  = if is_private t then None
    else walk_remove_private <$> (anonymize_tags l (ds, w)).1 !! t.
Proof.
  rewrite rewrite_pass_unfold. cbn [fst]. apply remove_private_tags_lookup.
Qed.

Lemma rewrite_pass_VR (l : list Tag) (ds : Dataset) (w : World)
    (t : Tag) e' :
  (rewrite_pass l (ds, w)).1 !! t = Some e' →
  is_private t = false ∧ ∃ e, ds !! t = Some e ∧ VR e' = VR e.
Proof.
  rewrite rewrite_pass_unfold. cbn [fst].
  intros (Hpriv & e1 & He1 & ->)%remove_private_tags_lookup_Some.
  split; [done |].
  apply anonymize_tags_VR in He1 as (e & He & Hvr). exists e.
  by rewrite VR_walk_remove_private.
Qed.

Lemma rewrite_pass_nil (ds : Dataset) (w : World) :
  rewrite_pass [] (ds, w) = (remove_private_tags ds, w).
Proof. done. Qed.

(** C8, as the code has it: the rewrite creates no element and changes
    no VR; a selected tag that the dataset does not hold is skipped; an
    element that is neither selected nor private keeps its tag and VR, and
    its value but for the private elements nested in its sequence items,
    which the walk removes; so a dataset without private elements at any
    depth comes out of the empty selection as it went in. *)
Theorem rewrite_pass_frame (tags_to_anonymize : list Tag) (ds : Dataset)
    (w : World) :
  let ds' := (rewrite_pass tags_to_anonymize (ds, w)).1 in
  (∀ t e', ds' !! t = Some e' → ∃ e, ds !! t = Some e ∧ VR e' = VR e)
  ∧ (∀ t, ds !! t = None →
       anonymize_tag (ds, w) t = (ds, w) ∧ ds' !! t = None)
  ∧ (∀ t e, t ∉ tags_to_anonymize → is_private t = false →
       ds !! t = Some e →
       ds' !! t = Some (walk_remove_private e)
       ∧ (elem_private_free e = true → ds' !! t = Some e))
  ∧ (private_free ds = true → rewrite_pass [] (ds, w) = (ds, w)).
Proof.
  intros ds'. split_and!.
  - intros t e' H. by apply rewrite_pass_VR in H as [_ H].
  - intros t Hnone. split; [by apply anonymize_tag_absent |].
    unfold ds'. rewrite rewrite_pass_lookup.
    rewrite anonymize_tags_absent by done. by destruct (is_private t).
  - intros t e Hsel Hpriv Hte. unfold ds'.
    rewrite rewrite_pass_lookup, Hpriv.
    rewrite anonymize_tags_not_selected, Hte by done.
    split; [done |]. intros Hfree. simpl.
    by rewrite walk_remove_private_id.
  - intros Hfree. by rewrite rewrite_pass_nil, remove_private_tags_id.
Qed.

End Frame.

(** * The fallback for the other VRs *)

Section Fallback.

(** Lines 89-94 for an element whose VR is none of the ten: the empty
    value, or, when it is rejected, the deletion and the warning. The
    step gives a next state in both cases. *)
Lemma fallback_step (ds : Dataset) (w : World) (t : Tag) e :
  ds !! t = Some e →
  VR e ∉ ["UI"; "PN"; "SH"; "LO"; "ST"; "LT"; "DA"; "TM"; "DS"; "IS"] →
  anonymize_tag (ds, w) t
  = if rejects_empty t e
    then (delete t ds, log_record (Warning_could_not_blank t) w)
    else (<[t := Element (VR e) (VText "")]> ds, w).
Proof.
  intros Hte [Hui Hs]%sentinel_other.
  by rewrite anonymize_tag_unfold, Hte, Hui, Hs.
Qed.

(** After the loop the rejected element is gone and the warning is in
    the log; the loop went through the whole selection. *)
Lemma fallback_rejected (l : list Tag) (ds : Dataset) (w : World)
    (t : Tag) e :
  t ∈ l → ds !! t = Some e →
  VR e ∉ ["UI"; "PN"; "SH"; "LO"; "ST"; "LT"; "DA"; "TM"; "DS"; "IS"] →
  rejects_empty t e = true →
  (rewrite_pass l (ds, w)).1 !! t = None
  ∧ Warning_could_not_blank t ∈ records (rewrite_pass l (ds, w)).2.
Proof.
  intros Hin Hte [Hui Hs]%sentinel_other Hrej.
  destruct (anonymize_tags_rejected l ds w t e) as [Hnone Hlog];
    try done.
  rewrite rewrite_pass_lookup, rewrite_pass_unfold, Hnone. cbn [snd].
  split; [by destruct (is_private t) | done].
Qed.

(** The file is then written without the element, provided that the
    synchronisation of the file meta and the write go through. *)
Lemma fallback_file_written input_path output_path (l : list Tag)
    (w : World) (fd : FileDataset) (t : Tag) e meta :
  files w !! input_path = Some (DicomFile fd) →
  t ∈ l → dataset fd !! t = Some e →
  VR e ∉ ["UI"; "PN"; "SH"; "LO"; "ST"; "LT"; "DA"; "TM"; "DS"; "IS"] →
  rejects_empty t e = true →
  sync_file_meta (rewrite_pass l (dataset fd, w)).1 (file_meta fd)
    = inr meta →
  unwritable output_path = false →
  ∃ w' fd',
    anonymize_dicom_file input_path output_path l w = (Return true, w')
    ∧ files w' !! output_path = Some (DicomFile fd')
    ∧ dataset fd' !! t = None
    ∧ Warning_could_not_blank t ∈ records w'.
Proof.
  intros Hfile Hin Hte Hvr Hrej Hsync Hw.
  destruct (fallback_rejected l (dataset fd) w t e) as [Hnone Hlog];
    try done.
  rewrite (anonymize_dicom_file_decoded _ _ _ _ fd Hfile). cbn zeta.
  rewrite Hsync, Hw. eexists _, _. split; [done |]. simpl.
  rewrite lookup_insert_eq. split_and!; [done | done |].
  apply elem_of_app. by left.
Qed.

End Fallback.

(** * A second run on an anonymized dataset *)

Section SecondRun.

(** What pydicom promises of the identifiers that [generate_uid] yields. *)
Variable valid_uid : string → Prop.
Hypothesis generate_uid_valid : ∀ n, valid_uid (uid_stream n).

(** The first run has left the replacement of its VR under a selected
    tag of the anonymized dataset. *)
Lemma anonymized_selected (l : list Tag) (ds : Dataset) (w : World)
    (t : Tag) e1 :
  t ∈ l → (rewrite_pass l (ds, w)).1 !! t = Some e1 →
  rewritten (next_uid w) (next_uid (rewrite_pass l (ds, w)).2) e1
    (Some e1).
Proof.
  intros Hin. rewrite rewrite_pass_unfold. cbn [fst snd].
  intros (Hpriv & eA & HeA & ->)%remove_private_tags_lookup_Some.
  pose proof HeA as (e0 & He0 & Hvr)%anonymize_tags_VR.
  pose proof (anonymize_tags_selected l ds w t e0 Hin He0) as Hrw.
  rewrite HeA in Hrw. unfold rewritten in *.
  rewrite VR_walk_remove_private, Hvr.
  destruct (String.eqb (VR e0) "UI").
  - destruct Hrw as (k & Hk & [= ->]). by exists k.
  - destruct (sentinel (VR e0)) as [s |].
    + by injection Hrw as ->.
    + destruct Hrw as [[=] | [= ->]]. by right.
Qed.

(** C7: in the dataset that a first run has anonymized, a second run
    with the same selection leaves every element of VR PN, SH, LO, ST,
    LT, DA, TM, DS or IS as it is, and gives a selected UI element an
    identifier that the generator yields during the second run, after
    the one that the first run had drawn for it. *)
Theorem second_run_fixed_point (tags_to_anonymize : list Tag)
    (ds : Dataset) (w : World) (t : Tag) (e1 : DataElement) :
  let st1 := rewrite_pass tags_to_anonymize (ds, w) in
  let st2 := rewrite_pass tags_to_anonymize st1 in
  st1.1 !! t = Some e1 →
  (VR e1 ∈ ["PN"; "SH"; "LO"; "ST"; "LT"; "DA"; "TM"; "DS"; "IS"] →
     st2.1 !! t = Some e1)
  ∧ (t ∈ tags_to_anonymize → VR e1 = "UI" →
       ∃ j k,
         next_uid w ≤ j < next_uid st1.2
         ∧ next_uid st1.2 ≤ k < next_uid st2.2
         ∧ e1 = Element "UI" (VText (uid_stream j))
         ∧ st2.1 !! t = Some (Element "UI" (VText (uid_stream k)))
         ∧ valid_uid (uid_stream k)).
Proof.
  intros st1 st2 He1.
  assert (is_private t = false) as Hpriv.
  { unfold st1 in He1. by apply rewrite_pass_VR in He1 as [? _]. }
  assert (st2.1 !! t
          = walk_remove_private
              <$> (anonymize_tags tags_to_anonymize st1).1 !! t) as Hst2.
  { unfold st2. destruct st1 as [ds1 w1].
    by rewrite rewrite_pass_lookup, Hpriv. }
  assert (next_uid st2.2
          = next_uid (anonymize_tags tags_to_anonymize st1).2) as Hn2.
  { unfold st2. destruct st1 as [ds1 w1].
    by rewrite rewrite_pass_unfold. }
  split.
  - intros [s Hs]%sentinel_is_Some.
    destruct (sentinel_Some_not_UI_SQ _ _ Hs) as [Hui Hsq].
    rewrite Hst2.
    destruct (decide (t ∈ tags_to_anonymize)) as [Hin | Hin].
    + pose proof (anonymized_selected _ ds w t e1 Hin He1) as Hfirst.
      unfold rewritten in Hfirst. rewrite Hui, Hs in Hfirst.
      injection Hfirst as Hfirst.
      destruct st1 as [ds1 w1]. cbn [fst snd] in *.
      pose proof (anonymize_tags_selected _ ds1 w1 t e1 Hin He1) as Hrw.
      unfold rewritten in Hrw. rewrite Hui, Hs, <- Hfirst in Hrw.
      rewrite Hrw. simpl. by rewrite walk_remove_private_not_SQ.
    + destruct st1 as [ds1 w1]. cbn [fst snd] in *.
      rewrite anonymize_tags_not_selected, He1 by done. simpl.
      by rewrite walk_remove_private_not_SQ.
  - intros Hin Hvr.
    pose proof (anonymized_selected _ ds w t e1 Hin He1) as Hfirst.
    unfold rewritten in Hfirst. rewrite Hvr in Hfirst.
    destruct Hfirst as (j & Hj & [= Hfirst]).
    fold st1 in Hj. rewrite Hn2, Hst2.
    destruct st1 as [ds1 w1]. cbn [fst snd] in *.
    pose proof (anonymize_tags_selected _ ds1 w1 t e1 Hin He1) as Hrw.
    unfold rewritten in Hrw. rewrite Hvr in Hrw.
    destruct Hrw as (k & Hk & Hrw). exists j, k.
    unfold set_value in Hfirst, Hrw. rewrite Hvr in Hfirst, Hrw.
    rewrite Hrw. split_and!; try done; lia.
Qed.

End SecondRun.

(** * The synchronisation of the file meta *)

Section MetaSync.

(** A SOP Instance UID whose VR is one of the ten of the chain is still in
    the dataset after the rewrite, selected or not. *)
Lemma sop_instance_uid_survives (l : list Tag) (ds : Dataset) (w : World) e :
  ds !! SOPInstanceUID = Some e →
  VR e ∈ ["UI"; "PN"; "SH"; "LO"; "ST"; "LT"; "DA"; "TM"; "DS"; "IS"] →
  is_Some ((rewrite_pass l (ds, w)).1 !! SOPInstanceUID).
Proof.
  intros He Hvr. rewrite rewrite_pass_lookup.
  change (is_private SOPInstanceUID) with false. cbv iota.
  destruct (decide (SOPInstanceUID ∈ l)) as [Hin | Hin].
  - pose proof (anonymize_tags_selected l ds w _ e Hin He) as Hrw.
    unfold rewritten in Hrw.
    apply elem_of_cons in Hvr as [Hui | Hvr].
    + rewrite Hui in Hrw. destruct Hrw as (k & _ & ->). by eexists.
    + apply sentinel_is_Some in Hvr as [s Hs].
      destruct (sentinel_Some_not_UI_SQ _ _ Hs) as [Hui _].
      rewrite Hui, Hs in Hrw. rewrite Hrw. by eexists.
  - rewrite anonymize_tags_not_selected, He by done. by eexists.
Qed.



End MetaSync.

(** * The identifiers that a run draws *)

Section Draws.

Lemma anonymize_tag_holds_uid (ds : Dataset) (w : World) (a t : Tag) :
  holds_uid (anonymize_tag (ds, w) a).1 t = holds_uid ds t.
Proof.
  unfold holds_uid. destruct (decide (a = t)) as [-> | Hne].
  2: { by rewrite anonymize_tag_other. }
  rewrite anonymize_tag_unfold.
  destruct (ds !! t) as [e |] eqn:Hte; simpl; [| by rewrite Hte].
  destruct (String.eqb (VR e) "UI") eqn:Hui; simpl.
  { by rewrite lookup_insert_eq. }
  destruct (sentinel (VR e)); simpl; [by rewrite lookup_insert_eq |].
  destruct (rejects_empty t e); simpl.
  - by rewrite lookup_delete_eq.
  - by rewrite lookup_insert_eq.
Qed.

Lemma anonymize_tag_draws (ds : Dataset) (w : World) (a : Tag) :
  next_uid (anonymize_tag (ds, w) a).2
  = next_uid w + (if holds_uid ds a then 1 else 0).
Proof.
  unfold holds_uid. rewrite anonymize_tag_unfold.
  destruct (ds !! a) as [e |]; simpl; [| lia].
  destruct (String.eqb (VR e) "UI"); simpl; [lia |].
  destruct (sentinel (VR e)); simpl; [lia |].
  destruct (rejects_empty a e); simpl; lia.
Qed.

(** X1: the loop calls the generator once for every entry of the selection
    under which the dataset holds an element of VR UI, and for no other:
    the number of identifiers drawn is the number of such entries. *)
Theorem draws_one_uid_per_selected_uid_element
    (tags_to_anonymize : list Tag) (ds : Dataset) (w : World) :
  next_uid (anonymize_tags tags_to_anonymize (ds, w)).2
  = next_uid w + length (filter (λ t, holds_uid ds t = true)
                           tags_to_anonymize).
Proof.
  revert ds w. induction tags_to_anonymize as [| a l IH]; intros ds w.
  { simpl. lia. }
  rewrite anonymize_tags_cons.
  pose proof (anonymize_tag_draws ds w a) as Hstep.
  pose proof (anonymize_tag_holds_uid ds w a) as Hsame.
  destruct (anonymize_tag (ds, w) a) as [ds1 w1]. cbn [fst snd] in *.
  rewrite IH, Hstep, filter_cons.
  rewrite (list_filter_iff (λ t, holds_uid ds1 t = true)
             (λ t, holds_uid ds t = true)) by (intros t; by rewrite Hsame).
  destruct (decide (holds_uid ds a = true)) as [-> | Hno]; simpl; [lia |].
  apply not_true_is_false in Hno. rewrite Hno. lia.
Qed.

End Draws.

(** * The values that the rewrite erases *)

Section Erasure.

(** The library decides on the VR whether it rejects the empty value. *)
Hypothesis rejects_empty_by_VR :
  ∀ t e1 e2, VR e1 = VR e2 → rejects_empty t e1 = rejects_empty t e2.

Lemma anonymize_tag_erases (ds1 ds2 : Dataset) (w : World) (a : Tag) :
  VR <$> ds1 !! a = VR <$> ds2 !! a →
  (anonymize_tag (ds1, w) a).1 !! a = (anonymize_tag (ds2, w) a).1 !! a
  ∧ (anonymize_tag (ds1, w) a).2 = (anonymize_tag (ds2, w) a).2.
Proof.
  rewrite !anonymize_tag_unfold.
  destruct (ds1 !! a) as [e1 |] eqn:H1, (ds2 !! a) as [e2 |] eqn:H2;
    simpl; try done; [| by rewrite H1, H2].
  intros [= Hvr].
  rewrite <- Hvr, (rejects_empty_by_VR a e2 e1) by done.
  unfold set_value. rewrite <- Hvr.
  destruct (String.eqb (VR e1) "UI"); simpl.
  { by rewrite !lookup_insert_eq. }
  destruct (sentinel (VR e1)); simpl; [by rewrite !lookup_insert_eq |].
  destruct (rejects_empty a e1); simpl.
  - by rewrite !lookup_delete_eq.
  - by rewrite !lookup_insert_eq.
Qed.

Lemma anonymize_tags_erases (l : list Tag) (ds1 ds2 : Dataset) (w : World) :
  (∀ t, ds1 !! t = ds2 !! t
        ∨ (t ∈ l ∧ VR <$> ds1 !! t = VR <$> ds2 !! t)) →
  anonymize_tags l (ds1, w) = anonymize_tags l (ds2, w).
Proof.
  revert ds1 ds2 w. induction l as [| a l IH]; intros ds1 ds2 w Hinv.
  { simpl. f_equal. apply map_eq. intros t.
    destruct (Hinv t) as [? | [[]%elem_of_nil _]]; done. }
  rewrite !anonymize_tags_cons.
  assert (VR <$> ds1 !! a = VR <$> ds2 !! a) as Ha.
  { destruct (Hinv a) as [-> | [_ ?]]; done. }
  destruct (anonymize_tag_erases ds1 ds2 w a Ha) as [Hlook Hworld].
  pose proof (anonymize_tag_other ds1 w a) as Ho1.
  pose proof (anonymize_tag_other ds2 w a) as Ho2.
  destruct (anonymize_tag (ds1, w) a) as [ds1' w1'].
  destruct (anonymize_tag (ds2, w) a) as [ds2' w2'].
  cbn [fst snd] in *. subst w2'. apply IH. intros t.
  destruct (decide (a = t)) as [<- | Hne]; [by left |].
  rewrite Ho1, Ho2 by done.
  destruct (Hinv t) as [? | [[? | ?]%elem_of_cons ?]]; auto; congruence.
Qed.

(** X2: the output of the rewrite does not depend on the values that the
    selected elements had: two datasets that hold the same elements outside
    the selection, and elements of the same VRs under the selected tags,
    come out of lines 75-97 as the same dataset, with the same log and the
    same identifiers drawn. *)
Theorem selected_values_are_erased (tags_to_anonymize : list Tag)
    (ds1 ds2 : Dataset) (w : World) :
  (∀ t, t ∉ tags_to_anonymize → ds1 !! t = ds2 !! t) →
  (∀ t, t ∈ tags_to_anonymize → VR <$> ds1 !! t = VR <$> ds2 !! t) →
  rewrite_pass tags_to_anonymize (ds1, w)
  = rewrite_pass tags_to_anonymize (ds2, w).
Proof.
  intros Hout Hin. rewrite !rewrite_pass_unfold.
  rewrite (anonymize_tags_erases tags_to_anonymize ds1 ds2 w); [done |].
  intros t. destruct (decide (t ∈ tags_to_anonymize)); auto.
Qed.

End Erasure.

(** * Sequences *)

Section Sequences.

(** X3: the rewrite does not go into sequences. An element in an item of a
    sequence that is neither selected nor private is still in that item
    with its value after lines 75-97, also when its own tag is selected,
    as long as it is not private and holds no private element itself. *)
Theorem nested_element_survives (tags_to_anonymize : list Tag)
    (ds : Dataset) (w : World) (t_seq t : Tag) (items : list Dataset)
    (i : nat) (item : Dataset) (e : DataElement) :
  t_seq ∉ tags_to_anonymize → is_private t_seq = false →
  ds !! t_seq = Some (Element "SQ" (VSequence items)) →
  items !! i = Some item → item !! t = Some e →
  is_private t = false → elem_private_free e = true →
  ∃ items' item',
    (rewrite_pass tags_to_anonymize (ds, w)).1 !! t_seq
      = Some (Element "SQ" (VSequence items'))
    ∧ length items' = length items
    ∧ items' !! i = Some item'
    ∧ item' !! t = Some e.
Proof.
  intros Hsel Hpriv Hseq Hitem Hte Hpt Hfree.
  exists (map remove_private_tags items), (remove_private_tags item).
  split_and!.
  - rewrite rewrite_pass_lookup, Hpriv.
    by rewrite anonymize_tags_not_selected, Hseq.
  - by rewrite length_map.
  - by rewrite list_lookup_fmap, Hitem.
  - rewrite remove_private_tags_lookup, Hpt, Hte. simpl.
    by rewrite walk_remove_private_id.
Qed.

(** X4: a selected sequence loses all its items: after the loop the
    dataset holds it with the empty value, or does not hold it any more. *)
Theorem selected_sequence_is_emptied (tags_to_anonymize : list Tag)
    (ds : Dataset) (w : World) (t : Tag) (e : DataElement) :
  t ∈ tags_to_anonymize → ds !! t = Some e → VR e = "SQ" →
  let ds' := (rewrite_pass tags_to_anonymize (ds, w)).1 in
  ds' !! t = None ∨ ds' !! t = Some (Element "SQ" (VText "")).
Proof.
  intros Hin Hte Hvr ds'. unfold ds'. rewrite rewrite_pass_lookup.
  destruct (is_private t); [by left |].
  pose proof (anonymize_tags_selected _ ds w t e Hin Hte) as Hrw.
  unfold rewritten, set_value in Hrw. rewrite Hvr in Hrw.
  destruct Hrw as [-> | ->]; [by left | by right].
Qed.

End Sequences.

(** * Deletions and the log *)

Section Deletions.

Lemma anonymize_tag_deletes (ds : Dataset) (w : World) (a t : Tag) e :
  ds !! t = Some e → (anonymize_tag (ds, w) a).1 !! t = None →
  a = t
  ∧ records (anonymize_tag (ds, w) a).2
    = records w ++ [Warning_could_not_blank t].
Proof.
  intros Hte. destruct (decide (a = t)) as [-> | Hne].
  2: { rewrite anonymize_tag_other by done. congruence. }
  rewrite anonymize_tag_unfold, Hte.
  destruct (String.eqb (VR e) "UI"); simpl;
    [by rewrite lookup_insert_eq |].
  destruct (sentinel (VR e)); simpl; [by rewrite lookup_insert_eq |].
  destruct (rejects_empty t e); simpl; [done |].
  by rewrite lookup_insert_eq.
Qed.

Lemma anonymize_tag_warns (ds : Dataset) (w : World) (a t : Tag) rs :
  records (anonymize_tag (ds, w) a).2 = records w ++ rs →
  Warning_could_not_blank t ∈ rs →
  (anonymize_tag (ds, w) a).1 !! t = None.
Proof.
  assert (records w = records w ++ rs →
          Warning_could_not_blank t ∈ rs → False) as Hnil.
  { intros Hrs. rewrite <- (app_nil_r (records w)) in Hrs at 1.
    apply app_inv_head in Hrs as <-. by intros ?%elem_of_nil. }
  rewrite anonymize_tag_unfold.
  destruct (ds !! a) as [e |] eqn:Hae; simpl;
    [| intros ? ?; by destruct Hnil].
  destruct (String.eqb (VR e) "UI"); simpl;
    [intros ? ?; by destruct Hnil |].
  destruct (sentinel (VR e)); simpl; [intros ? ?; by destruct Hnil |].
  destruct (rejects_empty a e); simpl;
    [| intros ? ?; by destruct Hnil].
  intros <-%app_inv_head [= ->]%list_elem_of_singleton.
  apply lookup_delete_eq.
Qed.

(** X5: an element that the dataset held under a tag that is not private
    is missing after lines 75-97 exactly when the run has logged the
    warning for that tag: the rewrite drops no public element silently,
    and it logs the warning for no element that it keeps. *)
Theorem deletion_iff_warning (tags_to_anonymize : list Tag) (ds : Dataset)
    (w : World) (t : Tag) (e : DataElement) :
  ds !! t = Some e → is_private t = false →
  ∃ rs,
    records (rewrite_pass tags_to_anonymize (ds, w)).2 = records w ++ rs
    ∧ ((rewrite_pass tags_to_anonymize (ds, w)).1 !! t = None
       ↔ Warning_could_not_blank t ∈ rs).
Proof.
  intros Hte Hpriv. rewrite rewrite_pass_unfold. cbn [fst snd].
  setoid_rewrite remove_private_tags_lookup. rewrite Hpriv.
  assert (∀ o : option DataElement,
            walk_remove_private <$> o = None ↔ o = None) as Hfmap
    by (intros [?|]; simpl; split; done).
  setoid_rewrite Hfmap. clear Hfmap Hpriv.
  revert ds w e Hte.
  induction tags_to_anonymize as [| a l IH]; intros ds w e Hte.
  { exists []. simpl. rewrite app_nil_r. split; [done |].
    rewrite Hte. split; [done | by intros ?%elem_of_nil]. }
  rewrite anonymize_tags_cons.
  pose proof (anonymize_tag_world ds w a) as (_ & _ & rs1 & Hrs1).
  pose proof (anonymize_tag_deletes ds w a t e Hte) as Hdel.
  pose proof (anonymize_tag_warns ds w a t rs1 Hrs1) as Hwarn.
  destruct (anonymize_tag (ds, w) a) as [ds1 w1]. cbn [fst snd] in *.
  destruct (ds1 !! t) as [e1 |] eqn:Hte1.
  - destruct (IH ds1 w1 e1 Hte1) as (rs & Hrs & Hiff).
    exists (rs1 ++ rs). rewrite Hrs, Hrs1, app_assoc. split; [done |].
    rewrite Hiff, elem_of_app. split; [auto |].
    intros [Hin | Hin]; [| done]. by apply Hwarn in Hin.
  - destruct (Hdel eq_refl) as [-> Hlog].
    pose proof (anonymize_tags_world l ds1 w1) as (_ & _ & rs & Hrs).
    exists ([Warning_could_not_blank t] ++ rs).
    rewrite Hrs, Hlog, <- app_assoc. split; [done |].
    rewrite anonymize_tags_absent by done. split; [| done].
    intros _. apply elem_of_app. left. by apply list_elem_of_singleton.
Qed.

End Deletions.

(** * What a call leaves of the files *)

Section Files.

Lemma anonymize_dicom_file_frame input_path output_path
    (l : list Tag) (w : World) :
  (∀ p, p ≠ output_path →
     files (anonymize_dicom_file input_path output_path l w).2 !! p
     = files w !! p)
  ∧ ((anonymize_dicom_file input_path output_path l w).1 ≠ Return true →
     files (anonymize_dicom_file input_path output_path l w).2 = files w).
Proof.
  destruct (files w !! input_path) as [[fd |] |] eqn:Hfile.
  - rewrite (anonymize_dicom_file_decoded _ _ _ _ fd Hfile). cbn zeta.
    rewrite rewrite_pass_unfold. cbn [fst snd].
    pose proof (anonymize_tags_world l (dataset fd) w) as (_ & Hfiles & _).
    destruct (sync_file_meta _ _); [simpl; by rewrite Hfiles |].
    destruct (unwritable output_path); [simpl; by rewrite Hfiles |].
    simpl. split; [| by intros []].
    intros p Hp. by rewrite lookup_insert_ne, Hfiles.
  - unfold anonymize_dicom_file, dcmread. by rewrite Hfile.
  - unfold anonymize_dicom_file, dcmread. by rewrite Hfile.
Qed.

(** X6: a call writes to its output path only: every other path of the file
    system holds what it held, and nothing at all is written by a call that
    does not return [True]. *)
Theorem call_writes_only_output_path input_path output_path
    (tags_to_anonymize : list Tag) (w : World) :
  let r := anonymize_dicom_file input_path output_path tags_to_anonymize w in
  (∀ p, p ≠ output_path → files r.2 !! p = files w !! p)
  ∧ (r.1 ≠ Return true → files r.2 = files w).
Proof. apply anonymize_dicom_file_frame. Qed.


(** X8: the call raises [AttributeError] exactly when the file decodes, its
    file meta holds (0002,0003) and the dataset holds no (0008,0018) after
    the rewrite; and that only happens when the input had none, or had it
    selected with a VR that is none of the ten of the chain. *)
Theorem raises_AttributeError_iff input_path output_path
    (tags_to_anonymize : list Tag) (w : World) :
  ((anonymize_dicom_file input_path output_path tags_to_anonymize w).1
     = Raise AttributeError
   ↔ ∃ fd,
       files w !! input_path = Some (DicomFile fd)
       ∧ is_Some (file_meta fd !! MediaStorageSOPInstanceUID)
       ∧ (rewrite_pass tags_to_anonymize (dataset fd, w)).1
           !! SOPInstanceUID = None)
  ∧ ((anonymize_dicom_file input_path output_path tags_to_anonymize w).1
       = Raise AttributeError →
     ∃ fd,
       files w !! input_path = Some (DicomFile fd)
       ∧ (dataset fd !! SOPInstanceUID = None
          ∨ ∃ e, dataset fd !! SOPInstanceUID = Some e
                 ∧ SOPInstanceUID ∈ tags_to_anonymize
                 ∧ VR e ∉ ["UI"; "PN"; "SH"; "LO"; "ST"; "LT"; "DA"; "TM";
                           "DS"; "IS"])).
Proof.
  assert ((anonymize_dicom_file input_path output_path tags_to_anonymize w).1
            = Raise AttributeError
          ↔ ∃ fd,
              files w !! input_path = Some (DicomFile fd)
              ∧ is_Some (file_meta fd !! MediaStorageSOPInstanceUID)
              ∧ (rewrite_pass tags_to_anonymize (dataset fd, w)).1
                  !! SOPInstanceUID = None) as Hiff.
  { destruct (files w !! input_path) as [[fd |] |] eqn:Hfile.
    - rewrite (anonymize_dicom_file_decoded _ _ _ _ fd Hfile). cbn zeta.
      unfold sync_file_meta.
      destruct (file_meta fd !! MediaStorageSOPInstanceUID) as [m |] eqn:Hm.
      + destruct (_ !! SOPInstanceUID) as [e |] eqn:Hsop.
        * destruct (unwritable output_path); simpl;
            (split; [done |];
             intros (fd0 & Heq & _ & Hnone); injection Heq as <-;
             congruence).
        * simpl. split; [| done]. intros _. exists fd.
          split_and!; [done | by rewrite Hm | done].
      + destruct (unwritable output_path); simpl;
          (split; [done |];
           intros (fd0 & Heq & [m' Hm'] & _); injection Heq as <-;
           congruence).
    - unfold anonymize_dicom_file, dcmread. rewrite Hfile. simpl.
      split; [done | by intros (? & ? & _)].
    - unfold anonymize_dicom_file, dcmread. rewrite Hfile. simpl.
      split; [done | by intros (? & ? & _)]. }
  split; [exact Hiff |].
  intros (fd & Hfile & _ & Hnone)%Hiff. exists fd. split; [done |].
  destruct (dataset fd !! SOPInstanceUID) as [e |] eqn:He; [| by left].
  right. exists e. split; [done |].
  rewrite rewrite_pass_lookup in Hnone.
  change (is_private SOPInstanceUID) with false in Hnone. cbv iota in Hnone.
  split.
  - destruct (decide (SOPInstanceUID ∈ tags_to_anonymize)); [done |].
    by rewrite anonymize_tags_not_selected, He in Hnone.
  - intros Hten.
    destruct (sop_instance_uid_survives tags_to_anonymize _ w e He Hten)
      as [e' He'].
    rewrite rewrite_pass_lookup in He'.
    change (is_private SOPInstanceUID) with false in He'. cbv iota in He'.
    congruence.
Qed.


End Files.

(** * Paths *)

Section Paths.

Lemma prefix_nil (s : string) : String.prefix "" s = true.
Proof. by destruct s. Qed.

Lemma prefix_cons (c : ascii) (a s : string) :
  String.prefix (String c a) (String c s) = String.prefix a s.
Proof. simpl. by destruct (ascii_dec c c). Qed.

Lemma prefix_cons_inv (c : ascii) (a s : string) :
  String.prefix (String c a) s = true →
  ∃ s', s = String c s' ∧ String.prefix a s' = true.
Proof.
  destruct s as [| d s']; simpl; [done |].
  destruct (ascii_dec c d) as [<- |]; [| done]. eauto.
Qed.

Lemma app_cons_string (c : ascii) (a b : string) :
  String c a +:+ b = String c (a +:+ b).
Proof. done. Qed.

Lemma app_nil_string (b : string) : "" +:+ b = b.
Proof. done. Qed.

Lemma prefix_app (a b : string) : String.prefix a (a +:+ b) = true.
Proof.
  induction a as [| c a IH]; [apply prefix_nil |].
  by rewrite app_cons_string, prefix_cons.
Qed.

Lemma prefix_app_l (a b s : string) :
  String.prefix (a +:+ b) s = true → String.prefix a s = true.
Proof.
  revert s. induction a as [| c a IH]; intros s; [by rewrite prefix_nil |].
  rewrite app_cons_string.
  intros (s' & -> & Hpre)%prefix_cons_inv. rewrite prefix_cons. by apply IH.
Qed.

Lemma prefix_length (a s : string) :
  String.prefix a s = true → String.length a ≤ String.length s.
Proof.
  revert s. induction a as [| c a IH]; intros s; simpl; [lia |].
  intros (s' & -> & Hpre)%prefix_cons_inv. simpl.
  apply IH in Hpre. lia.
Qed.

Lemma length_app_string (a b : string) :
  String.length (a +:+ b) = String.length a + String.length b.
Proof.
  induction a as [| c a IH]; [done |].
  rewrite app_cons_string. simpl. by rewrite IH.
Qed.

Lemma app_assoc_string (a b c : string) :
  (a +:+ b) +:+ c = a +:+ (b +:+ c).
Proof.
  induction a as [| x a IH]; [done |].
  by rewrite !app_cons_string, IH.
Qed.

Lemma has_sep_app_sep (a b : string) : has_sep (a +:+ String "/" b) = true.
Proof.
  induction a as [| c a IH]; [done |].
  rewrite app_cons_string. simpl. rewrite IH. apply orb_true_r.
Qed.

Lemma startswith_sep_has_sep (f : string) :
  has_sep f = false → startswith f "/" = false.
Proof.
  destruct f as [| c f]; [done |]. unfold startswith.
  change (String.prefix "/" (String c f))
    with (if ascii_dec "/" c then String.prefix "" f else false).
  destruct (ascii_dec "/" c) as [<- |]; [| done].
  cbn [has_sep]. by rewrite Ascii.eqb_refl.
Qed.

(** A text without separator at the end of a path starts after the last
    separator of the path. *)
Lemma app_sep_split (a b c f : string) :
  a +:+ String "/" b = c +:+ f → has_sep f = false →
  String.prefix (a +:+ "/") c = true.
Proof.
  revert c. induction a as [| y a IH]; intros c Heq Hf.
  - rewrite app_nil_string in Heq. destruct c as [| x c].
    + rewrite app_nil_string in Heq. subst f.
      cbn [has_sep] in Hf. by rewrite Ascii.eqb_refl in Hf.
    + rewrite app_cons_string in Heq. injection Heq as <- _.
      rewrite app_nil_string, prefix_cons. apply prefix_nil.
  - rewrite app_cons_string in Heq. destruct c as [| x c].
    + rewrite app_nil_string in Heq. subst f. simpl in Hf.
      rewrite has_sep_app_sep in Hf. by rewrite orb_true_r in Hf.
    + rewrite app_cons_string in Heq. injection Heq as <- Heq.
      rewrite app_cons_string, prefix_cons. by apply IH.
Qed.

Lemma prefix_sep_both (a r : string) :
  String.prefix (a +:+ "/") (r +:+ "/") = true → String.prefix a r = true.
Proof.
  revert r. induction a as [| x a IH]; intros r; [by rewrite prefix_nil |].
  rewrite app_cons_string.
  intros (s' & Heq & Hpre)%prefix_cons_inv.
  destruct r as [| y r].
  - rewrite app_nil_string in Heq. injection Heq as _ <-.
    destruct a; by rewrite ?app_cons_string, ?app_nil_string in Hpre.
  - rewrite app_cons_string in Heq. injection Heq as <- <-.
    rewrite prefix_cons. by apply IH.
Qed.

Lemma endswith_sep_anonymized (x : string) :
  endswith_sep (x +:+ "anonymized") = false ∧ x +:+ "anonymized" ≠ "".
Proof.
  induction x as [| c x [IH Hne]]; [done |].
  rewrite app_cons_string. split; [| done]. simpl.
  by destruct (x +:+ "anonymized").
Qed.

(** The output directory is the input directory, a separator unless it
    ends with one, and the name "anonymized". *)
Lemma output_dir_shape (input_dir : string) :
  ∃ x, os_path_join input_dir "anonymized" = x +:+ "anonymized"
       ∧ (x = input_dir ∨ x = input_dir +:+ "/").
Proof.
  unfold os_path_join. change (startswith "anonymized" "/") with false.
  cbv iota. destruct (String.eqb input_dir "" || endswith_sep input_dir).
  - exists input_dir. auto.
  - exists (input_dir +:+ "/"). split; [by rewrite app_assoc_string | auto].
Qed.

Lemma os_path_join_output (input_dir rel : string) :
  startswith rel "/" = false →
  os_path_join (os_path_join input_dir "anonymized") rel
  = os_path_join input_dir "anonymized" +:+ String "/" rel.
Proof.
  intros Hrel. destruct (output_dir_shape input_dir) as (x & -> & _).
  destruct (endswith_sep_anonymized x) as [Hend Hne].
  unfold os_path_join at 1. rewrite Hrel, Hend.
  by apply String.eqb_neq in Hne as ->.
Qed.

Lemma os_path_join_file (root f : string) :
  has_sep f = false →
  ∃ root', os_path_join root f = root' +:+ f
           ∧ (root' = root ∨ root' = root +:+ "/").
Proof.
  intros Hf%startswith_sep_has_sep. unfold os_path_join. rewrite Hf.
  destruct (String.eqb root "" || endswith_sep root).
  - exists root. auto.
  - exists (root +:+ "/"). split; [by rewrite app_assoc_string | auto].
Qed.

(** The path that the batch writes for a file is the path of no file that
    the scan can find: it lies under the output directory, whose roots the
    scan skips. *)
Lemma output_path_is_no_input (input_dir root f rel : string) :
  has_sep f = false →
  startswith root (os_path_join input_dir "anonymized") = false →
  startswith rel "/" = false →
  os_path_join (os_path_join input_dir "anonymized") rel
  ≠ os_path_join root f.
Proof.
  intros Hf Hroot Hrel. rewrite os_path_join_output by done.
  destruct (os_path_join_file root f Hf) as (root' & -> & Hroot').
  intros Hpre%app_sep_split; [| done].
  unfold startswith in Hroot.
  destruct Hroot' as [-> | ->].
  - apply prefix_app_l in Hpre. congruence.
  - apply prefix_sep_both in Hpre. congruence.
Qed.

End Paths.

(** * The scan of the directory *)

Section Scan.

Lemma files_to_process_elem_of (output_dir : string)
    (walk : list (string * list string * list string)) (p : string) :
  p ∈ files_to_process output_dir walk
  ↔ ∃ root dirs files f,
      (root, dirs, files) ∈ walk ∧ startswith root output_dir = false
      ∧ f ∈ files ∧ p = os_path_join root f.
Proof.
  unfold files_to_process. rewrite list_elem_of_In, in_flat_map. split.
  - intros ([[root dirs] files] & Hin%list_elem_of_In & Hp).
    destruct (startswith root output_dir) eqn:Hskip; [done |].
    apply list_elem_of_In, list_elem_of_fmap in Hp as (f & -> & Hf).
    by exists root, dirs, files, f.
  - intros (root & dirs & files & f & Hin & Hskip & Hf & ->).
    exists (root, dirs, files). split; [by apply list_elem_of_In |].
    rewrite Hskip. by apply list_elem_of_In, list_elem_of_fmap_2.
Qed.

Lemma files_to_process_app (output_dir : string)
    (walk1 walk2 : list (string * list string * list string)) :
  files_to_process output_dir (walk1 ++ walk2)
  = files_to_process output_dir walk1 ++ files_to_process output_dir walk2.
Proof. unfold files_to_process. apply flat_map_app. Qed.

(** X15: the scan skips a directory by the text of its path: every root
    whose path starts with the text of the output directory gives no file,
    be it the output directory, a directory below it, or a directory beside
    it whose name only starts like its name (as "anonymized_old"). *)
Theorem scan_skips_by_text_prefix (output_dir suffix : string)
    (walk1 walk2 : list (string * list string * list string))
    (dirs files : list string) :
  files_to_process output_dir
    (walk1 ++ (output_dir +:+ suffix, dirs, files) :: walk2)
  = files_to_process output_dir (walk1 ++ walk2).
Proof.
  rewrite !files_to_process_app. f_equal.
  change ((output_dir +:+ suffix, dirs, files) :: walk2)
    with ([(output_dir +:+ suffix, dirs, files)] ++ walk2).
  rewrite files_to_process_app.
  unfold files_to_process at 1, startswith. simpl.
  by rewrite prefix_app.
Qed.

Lemma input_dir_not_skipped (input_dir : string) :
  startswith input_dir (os_path_join input_dir "anonymized") = false.
Proof.
  unfold startswith.
  destruct (String.prefix _ input_dir) eqn:Hpre; [| done].
  apply prefix_length in Hpre.
  destruct (output_dir_shape input_dir) as (x & Heq & Hx).
  rewrite Heq, length_app_string in Hpre.
  destruct Hx as [-> | ->]; rewrite ?length_app_string in Hpre;
    simpl in Hpre; lia.
Qed.

(** X16: the scan never skips the input directory itself: every file that
    the walk lists directly in it is among the files to process. *)
Theorem input_directory_is_scanned (input_dir : string)
    (walk : list (string * list string * list string))
    (dirs files : list string) (f : string) :
  (input_dir, dirs, files) ∈ walk → f ∈ files →
  os_path_join input_dir f
  ∈ files_to_process (os_path_join input_dir "anonymized") walk.
Proof.
  intros Hin Hf. apply files_to_process_elem_of.
  exists input_dir, dirs, files, f.
  split_and!; [done | apply input_dir_not_skipped | done | done].
Qed.

End Scan.

(** * The batch over the directory *)

Section Batch.

Variables input_dir : string.
Variable selected : list Tag.

Local Abbreviation output_dir := (os_path_join input_dir "anonymized").
Local Abbreviation output_of file_path :=
  (os_path_join output_dir (os_path_relpath file_path input_dir)).
Local Abbreviation batch := (process_files input_dir output_dir selected).

Lemma process_files_cons (p : string) (rest : list string) (c : nat)
    (w : World) :
  batch (p :: rest) c w
  = match anonymize_dicom_file p (output_of p) selected w with
    | (Return true, w') => batch rest (S c) w'
    | (Return false, w') => batch rest c w'
    | (Raise exn, w') => (inl exn, w')
    end.
Proof. done. Qed.

(** The loop writes to the output paths of the files it goes through, and
    to no other path. *)
Lemma process_files_frame (fs : list string) (c : nat) (w : World)
    (p : string) :
  (∀ q, q ∈ fs → output_of q ≠ p) →
  files (batch fs c w).2 !! p = files w !! p.
Proof.
  revert c w. induction fs as [| q fs IH]; intros c w Hout; [done |].
  rewrite process_files_cons.
  pose proof (anonymize_dicom_file_frame q (output_of q) selected w)
    as [Hframe _].
  assert (p ≠ output_of q) as Hp.
  { intros Heq. by apply (Hout q (list_elem_of_here _ _)). }
  specialize (Hframe p Hp).
  destruct (anonymize_dicom_file q (output_of q) selected w)
    as [[[|] | exn] w1]; cbn [fst snd] in *; [| | done].
  - rewrite IH; [done |]. intros q' ?. by apply Hout, list_elem_of_further.
  - rewrite IH; [done |]. intros q' ?. by apply Hout, list_elem_of_further.
Qed.

Lemma is_dicom_file_ext (w w1 : World) (p : string) :
  files w1 !! p = files w !! p → is_dicom_file w1 p = is_dicom_file w p.
Proof. unfold is_dicom_file. by intros ->. Qed.

Lemma filter_ext_elem_of {A} (P Q : A → Prop) `{!∀ x, Decision (P x)}
    `{!∀ x, Decision (Q x)} (l : list A) :
  (∀ x, x ∈ l → P x ↔ Q x) → filter P l = filter Q l.
Proof.
  induction l as [| x l IH]; intros Hext; [done |].
  rewrite !filter_cons.
  rewrite IH by (intros y ?; by apply Hext, list_elem_of_further).
  pose proof (Hext x (list_elem_of_here _ _)) as Hx.
  destruct (decide (P x)) as [HP | HP], (decide (Q x)) as [HQ | HQ];
    [done | | | done].
  - destruct HQ. by apply Hx.
  - destruct HP. by apply Hx.
Qed.

Lemma anonymize_dicom_file_result (p out : string) (w : World) :
  match (anonymize_dicom_file p out selected w).1 with
  | Return true => is_dicom_file w p = true
  | Return false => is_dicom_file w p = false
  | Raise exn => exn = AttributeError ∨ exn = OSError
  end.
Proof.
  unfold is_dicom_file.
  destruct (files w !! p) as [[fd |] |] eqn:Hfile.
  - rewrite (anonymize_dicom_file_decoded _ _ _ _ fd Hfile). cbn zeta.
    unfold sync_file_meta.
    destruct (file_meta fd !! MediaStorageSOPInstanceUID);
      [destruct (_ !! SOPInstanceUID) |];
      try destruct (unwritable out); simpl; auto.
  - unfold anonymize_dicom_file, dcmread. by rewrite Hfile.
  - unfold anonymize_dicom_file, dcmread. rewrite Hfile. simpl. auto.
Qed.

(** When the loop ends with a count, the count has grown by the number of
    DICOM files among the files of the loop. *)
Lemma process_files_count (fs : list string) (c c' : nat) (w w' : World) :
  (∀ p q, p ∈ fs → q ∈ fs → output_of q ≠ p) →
  batch fs c w = (inr c', w') →
  c' = c + length (filter (λ p, is_dicom_file w p = true) fs).
Proof.
  revert c w. induction fs as [| q fs IH]; intros c w Hdisj.
  { intros [= <- <-]. simpl. lia. }
  rewrite process_files_cons, filter_cons.
  pose proof (anonymize_dicom_file_result q (output_of q) w) as Hres.
  pose proof (anonymize_dicom_file_frame q (output_of q) selected w)
    as [Hframe _].
  assert (∀ c1 w1,
            (∀ p, p ≠ output_of q → files w1 !! p = files w !! p) →
            batch fs c1 w1 = (inr c', w') →
            c' = c1 + length (filter (λ p, is_dicom_file w p = true) fs))
    as Hrest.
  { intros c1 w1 Hw1 Hrun. rewrite (IH c1 w1); [| | done].
    - f_equal. f_equal. apply filter_ext_elem_of. intros p Hp.
      rewrite (is_dicom_file_ext w w1 p); [done |]. apply Hw1.
      intros ->. eapply Hdisj; [| | done];
        [by apply list_elem_of_further | apply list_elem_of_here].
    - intros p q' ? ?. by apply Hdisj; apply list_elem_of_further. }
  destruct (anonymize_dicom_file q (output_of q) selected w)
    as [[[|] | exn] w1]; cbn [fst snd] in *; [| | done].
  - intros Hrun%Hrest; [| done].
    rewrite decide_True by done. simpl. lia.
  - intros Hrun%Hrest; [| done].
    rewrite decide_False by congruence. lia.
Qed.


(** The scan and the paths of the file system: the walk lists names without
    separator, and the relative path of a file found is not absolute. *)
Hypothesis walk_lists_names :
  ∀ root dirs files f,
    (root, dirs, files) ∈ os_walk input_dir → f ∈ files →
    has_sep f = false.
Hypothesis relpath_is_relative :
  ∀ p, p ∈ files_to_process output_dir (os_walk input_dir) →
       startswith (os_path_relpath p input_dir) "/" = false.

Lemma outputs_are_no_inputs (p q : string) :
  p ∈ files_to_process output_dir (os_walk input_dir) →
  q ∈ files_to_process output_dir (os_walk input_dir) →
  output_of q ≠ p.
Proof.
  intros (root & dirs & files & f & Hin & Hskip & Hf & ->)%files_to_process_elem_of Hq.
  apply output_path_is_no_input; [| done |].
  - by eapply walk_lists_names.
  - by apply relpath_is_relative.
Qed.

(** X18: the click on the button overwrites no file that it reads: however
    it ends, every file that the scan has found holds what it held. *)
Theorem batch_keeps_its_inputs (w : World) (p : string) :
  p ∈ files_to_process output_dir (os_walk input_dir) →
  files (anonymize_directory selected input_dir w).2 !! p = files w !! p.
Proof.
  intros Hp. unfold anonymize_directory.
  pose proof outputs_are_no_inputs as Hdisj.
  destruct selected as [| t sel] eqn:Hsel; [done |].
  destruct (negb (String.eqb input_dir "") && os_path_isdir input_dir);
    [| done].
  cbn zeta.
  destruct (files_to_process output_dir (os_walk input_dir))
    as [| q fs] eqn:Hscan; [done |].
  pose proof (process_files_frame (q :: fs) 0 w p) as Hframe.
  rewrite Hsel in Hframe.
  destruct (process_files _ _ _ _ _ _) as [[exn | c] w']; cbn [snd] in *;
    apply Hframe; intros q' Hq'; apply Hdisj; done.
Qed.

(** X19: when the click ends with the message of completion, the count
    that the page shows is the number of DICOM files among the files that
    the scan has found. *)
Theorem count_is_number_of_dicom_files (w w' : World)
    (messages : list Message) (c : nat) (out : string) :
  anonymize_directory selected input_dir w = (inr messages, w') →
  Success_complete c out ∈ messages →
  out = output_dir
  ∧ c = length (filter (λ p, is_dicom_file w p = true)
                  (files_to_process output_dir (os_walk input_dir)))
  ∧ c ≤ length (files_to_process output_dir (os_walk input_dir)).
Proof.
  unfold anonymize_directory.
  pose proof outputs_are_no_inputs as Hdisj.
  destruct selected as [| t sel] eqn:Hsel.
  { intros [= <- <-] [[=] | []%elem_of_nil]%elem_of_cons. }
  destruct (negb (String.eqb input_dir "") && os_path_isdir input_dir).
  2: { intros [= <- <-] [[=] | []%elem_of_nil]%elem_of_cons. }
  cbn zeta.
  destruct (files_to_process output_dir (os_walk input_dir))
    as [| q fs] eqn:Hscan.
  { intros [= <- <-] [[=] | []%elem_of_nil]%elem_of_cons. }
  pose proof (process_files_count (q :: fs) 0) as Hcount.
  rewrite Hsel in Hcount.
  destruct (process_files _ _ _ _ _ _) as [[exn | c0] w1] eqn:Hrun; [done |].
  intros [= <- <-].
  intros [[=] | [[= -> ->] | []%elem_of_nil]%elem_of_cons]%elem_of_cons.
  pose proof (Hcount c0 w w1 Hdisj Hrun) as Hc. simpl in Hc.
  split_and!; [done | done |]. rewrite Hc. apply length_filter.
Qed.


End Batch.

End Engine.

(** * Two runs on the same dataset *)

Section TwoRuns.

(** The two runs draw their identifiers from generators of their own;
    the library rejects the same assignments in both. *)
Variables uid_stream1 uid_stream2 : nat → string.
Variable rejects_empty : Tag → DataElement → bool.

Lemma same_up_to_uid_refl (ds : Dataset) : same_up_to_uid ds ds.
Proof. intros t. by left. Qed.

Lemma anonymize_tag_same_up_to_uid (ds1 ds2 : Dataset) (w1 w2 : World)
    (a : Tag) :
  same_up_to_uid ds1 ds2 →
  same_up_to_uid
    (anonymize_tag uid_stream1 rejects_empty (ds1, w1) a).1
    (anonymize_tag uid_stream2 rejects_empty (ds2, w2) a).1.
Proof.
  intros Hsame t. destruct (decide (a = t)) as [-> | Hne].
  2: { rewrite !anonymize_tag_other by done. apply Hsame. }
  rewrite !anonymize_tag_unfold.
  destruct (Hsame t) as [Heq | (v1 & v2 & -> & ->)].
  - rewrite <- Heq. destruct (ds1 !! t) as [e |] eqn:Hte;
      [| left; simpl; congruence].
    destruct (String.eqb_spec (VR e) "UI") as [Hvr | _]; simpl.
    { right. rewrite !lookup_insert_eq. unfold set_value.
      rewrite Hvr. eauto. }
    destruct (sentinel (VR e)); simpl.
    { left. by rewrite !lookup_insert_eq. }
    destruct (rejects_empty t e); simpl; left.
    + by rewrite !lookup_delete_eq.
    + by rewrite !lookup_insert_eq.
  - simpl. right. rewrite !lookup_insert_eq. unfold set_value. simpl.
    eauto.
Qed.

Lemma anonymize_tags_same_up_to_uid (l : list Tag) (ds1 ds2 : Dataset)
    (w1 w2 : World) :
  same_up_to_uid ds1 ds2 →
  same_up_to_uid
    (anonymize_tags uid_stream1 rejects_empty l (ds1, w1)).1
    (anonymize_tags uid_stream2 rejects_empty l (ds2, w2)).1.
Proof.
  revert ds1 ds2 w1 w2.
  induction l as [| a l IH]; intros ds1 ds2 w1 w2 Hsame; [done |].
  rewrite !anonymize_tags_cons.
  pose proof (anonymize_tag_same_up_to_uid ds1 ds2 w1 w2 a Hsame) as Hstep.
  destruct (anonymize_tag uid_stream1 rejects_empty (ds1, w1) a).
  destruct (anonymize_tag uid_stream2 rejects_empty (ds2, w2) a).
  by apply IH.
Qed.

Lemma remove_private_tags_same_up_to_uid (ds1 ds2 : Dataset) :
  same_up_to_uid ds1 ds2 →
  same_up_to_uid (remove_private_tags ds1) (remove_private_tags ds2).
Proof.
  intros Hsame t. rewrite !remove_private_tags_lookup.
  destruct (is_private t); [by left |].
  destruct (Hsame t) as [-> | (v1 & v2 & -> & ->)]; [by left |].
  right. exists v1, v2. by destruct v1, v2.
Qed.

(** C10: two runs of the rewrite on the same dataset, each with a
    generator of its own, give the same dataset when no selected tag of
    the dataset has VR UI; in general they differ at most in the values
    of selected elements of VR UI, which both outputs hold. *)
Theorem rewrite_pass_deterministic_but_for_uids
    (tags_to_anonymize : list Tag) (ds : Dataset) (w1 w2 : World) :
  let out1 :=
    (rewrite_pass uid_stream1 rejects_empty tags_to_anonymize (ds, w1)).1 in
  let out2 :=
    (rewrite_pass uid_stream2 rejects_empty tags_to_anonymize (ds, w2)).1 in
  ((∀ t e, t ∈ tags_to_anonymize → ds !! t = Some e → VR e ≠ "UI") →
     out1 = out2)
  ∧ (∀ t, out1 !! t ≠ out2 !! t →
       t ∈ tags_to_anonymize
       ∧ (∃ e, ds !! t = Some e ∧ VR e = "UI")
       ∧ ∃ v1 v2, out1 !! t = Some (Element "UI" v1)
                  ∧ out2 !! t = Some (Element "UI" v2)).
Proof.
  intros out1 out2.
  assert (same_up_to_uid out1 out2) as Hsame.
  { unfold out1, out2. rewrite !rewrite_pass_unfold. cbn [fst].
    apply remove_private_tags_same_up_to_uid,
      anonymize_tags_same_up_to_uid, same_up_to_uid_refl. }
  assert (∀ t, out1 !! t = out2 !! t
       ∨ (t ∈ tags_to_anonymize
          ∧ (∃ e, ds !! t = Some e ∧ VR e = "UI")
          ∧ ∃ v1 v2, out1 !! t = Some (Element "UI" v1)
                     ∧ out2 !! t = Some (Element "UI" v2))) as Hcase.
  { intros t.
    destruct (decide (t ∈ tags_to_anonymize)) as [Hin | Hin].
    - destruct (Hsame t) as [Heq | (v1 & v2 & H1 & H2)]; [by left |].
      right. split_and!; [done | | eauto].
      unfold out1 in H1.
      apply rewrite_pass_VR in H1 as (_ & e & He & Hvr). eauto.
    - left. unfold out1, out2. rewrite !rewrite_pass_lookup.
      by rewrite !anonymize_tags_not_selected. }
  split.
  - intros Hno. apply map_eq. intros t.
    destruct (Hcase t) as [Heq | (Hin & (e & He & Hvr) & _)]; [done |].
    by destruct (Hno t e).
  - intros t Hne. by destruct (Hcase t) as [Heq | Hdiff].
Qed.

End TwoRuns.

(** * The order of the selection *)

Section SelectionOrder.

Variables uid_stream1 uid_stream2 : nat → string.
Variable rejects_empty : Tag → DataElement → bool.






End SelectionOrder.

(** * The catalog and the checkboxes *)

Section Checkboxes.

Lemma ALL_TAGS_TO_ANONYMIZE_NoDup : NoDup ALL_TAGS_TO_ANONYMIZE.
Proof. apply (bool_decide_unpack _). by vm_compute. Qed.

Lemma ALL_TAGS_TO_ANONYMIZE_public (t : Tag) :
  t ∈ ALL_TAGS_TO_ANONYMIZE → is_private t = false ∧ t.1 ≠ 2%N.
Proof.
  intros Hin.
  assert (Forall (λ t : Tag, is_private t = false ∧ t.1 ≠ 2%N)
            ALL_TAGS_TO_ANONYMIZE) as Hall.
  { apply (bool_decide_unpack _). by vm_compute. }
  rewrite Forall_forall in Hall. by apply Hall.
Qed.

Lemma flat_map_filter {A B} (P : B → Prop) `{!∀ x, Decision (P x)}
    (f : A → list B) (l : list A) :
  flat_map (λ x, filter P (f x)) l = filter P (flat_map f l).
Proof.
  induction l as [| x l IH]; [done |]. simpl. by rewrite filter_app, IH.
Qed.

Lemma filter_all {A} (P : A → Prop) `{!∀ x, Decision (P x)} (l : list A) :
  filter P l = l ↔ ∀ x, x ∈ l → P x.
Proof.
  split.
  - intros Heq x Hin. destruct (decide (P x)) as [| Hno]; [done |].
    pose proof (length_filter_lt P l x Hin Hno) as Hlt.
    rewrite Heq in Hlt. lia.
  - induction l as [| x l IH]; intros Hall; [done |].
    rewrite filter_cons_True by (apply Hall, list_elem_of_here).
    f_equal. apply IH. intros y ?. apply Hall. by apply list_elem_of_further.
Qed.

Lemma filter_none {A} (P : A → Prop) `{!∀ x, Decision (P x)} (l : list A) :
  (∀ x, x ∈ l → ¬ P x) → filter P l = [].
Proof.
  induction l as [| x l IH]; intros Hall; [done |].
  rewrite filter_cons_False by (apply Hall, list_elem_of_here).
  apply IH. intros y ?. apply Hall. by apply list_elem_of_further.
Qed.

Lemma selected_tags_filter (ss : SessionState) :
  selected_tags ss
  = filter (λ tag, is_checked ss tag = true) ALL_TAGS_TO_ANONYMIZE.
Proof.
  unfold selected_tags, ALL_TAGS_TO_ANONYMIZE.
  apply (flat_map_filter (λ tag, is_checked ss tag = true) snd).
Qed.

(** X11: whatever the state of the checkboxes, the selection that the page
    hands to the engine lists each checked tag of the catalog once, in the
    order of the catalog, and holds no private tag and no tag of the file
    meta (group 0002). *)
Theorem selected_tags_of_catalog (ss : SessionState) :
  (∀ t, t ∈ selected_tags ss
        ↔ t ∈ ALL_TAGS_TO_ANONYMIZE ∧ ss !! tag_key t = Some true)
  ∧ NoDup (selected_tags ss)
  ∧ selected_tags ss `sublist_of` ALL_TAGS_TO_ANONYMIZE
  ∧ ∀ t, t ∈ selected_tags ss → is_private t = false ∧ t.1 ≠ 2%N.
Proof.
  rewrite selected_tags_filter.
  assert (∀ t, t ∈ filter (λ tag, is_checked ss tag = true)
                     ALL_TAGS_TO_ANONYMIZE
               ↔ t ∈ ALL_TAGS_TO_ANONYMIZE ∧ ss !! tag_key t = Some true)
    as Hmem.
  { intros t. rewrite list_elem_of_filter. unfold is_checked.
    destruct (ss !! tag_key t) as [[|] |]; simpl;
      (split; [by intros [? ?] | by intros [? ?]]). }
  split_and!.
  - exact Hmem.
  - apply NoDup_filter, ALL_TAGS_TO_ANONYMIZE_NoDup.
  - apply sublist_filter.
  - intros t [Hin _]%Hmem. by apply ALL_TAGS_TO_ANONYMIZE_public.
Qed.

Lemma init_session_state_lookup (tags : list Tag) (ss : SessionState)
    (k : string) :
  fold_left
    (λ ss tag,
       match ss !! tag_key tag with
       | None => <[tag_key tag := true]> ss
       | Some _ => ss
       end) tags ss !! k
  = match ss !! k with
    | Some b => Some b
    | None => if bool_decide (k ∈ tag_key <$> tags) then Some true else None
    end.
Proof.
  revert ss. induction tags as [| t tags IH]; intros ss; cbn [fold_left].
  { by destruct (ss !! k). }
  rewrite IH, fmap_cons.
  destruct (decide (k = tag_key t)) as [-> | Hkt].
  - rewrite (bool_decide_true (tag_key t ∈ tag_key t :: _))
      by apply list_elem_of_here.
    destruct (ss !! tag_key t) as [b |] eqn:Ht; [by rewrite Ht |].
    by rewrite lookup_insert_eq.
  - assert (k ∈ tag_key t :: (tag_key <$> tags) ↔ k ∈ tag_key <$> tags)
      as Hiff.
    { rewrite elem_of_cons. split; [by intros [? | ?] | auto]. }
    rewrite (bool_decide_ext _ _ Hiff).
    destruct (ss !! tag_key t) as [b |]; [done |].
    by rewrite lookup_insert_ne.
Qed.

Lemma all_checked_Some_true (ss : SessionState) (tags : list Tag) :
  all_checked ss tags = Some true
  ↔ ∀ t, t ∈ tags → ss !! tag_key t = Some true.
Proof.
  induction tags as [| t tags IH]; simpl.
  { split; [by intros _ t ?%elem_of_nil | done]. }
  destruct (ss !! tag_key t) as [[|] |] eqn:Ht.
  - rewrite IH. split.
    + intros H t' [-> | ?]%elem_of_cons; auto.
    + intros H t' ?. apply H. by apply list_elem_of_further.
  - split; [done |]. intros H.
    specialize (H t (list_elem_of_here _ _)). congruence.
  - split; [done |]. intros H.
    specialize (H t (list_elem_of_here _ _)). congruence.
Qed.

Lemma all_checked_is_Some (ss : SessionState) (tags : list Tag) :
  (∀ t, t ∈ tags → is_Some (ss !! tag_key t)) →
  is_Some (all_checked ss tags).
Proof.
  induction tags as [| t tags IH]; intros Hall; simpl; [by eexists |].
  destruct (Hall t (list_elem_of_here _ _)) as [[|] ->]; [| by eexists].
  apply IH. intros t' ?. apply Hall. by apply list_elem_of_further.
Qed.

(** X12: the initialisation of lines 137-139 keeps every state that the
    session holds and gives the state [True] to the tags of the catalog
    that have none; it touches no other key; a second initialisation
    changes nothing; and after it the reading of the states at line 150
    finds every key. On a fresh session every tag is selected. *)
Theorem init_session_state_keeps_selection (ss : SessionState) :
  (∀ k b, ss !! k = Some b → init_session_state ss !! k = Some b)
  ∧ (∀ t, t ∈ ALL_TAGS_TO_ANONYMIZE →
       ss !! tag_key t = None →
       init_session_state ss !! tag_key t = Some true)
  ∧ (∀ k, k ∉ tag_key <$> ALL_TAGS_TO_ANONYMIZE →
       init_session_state ss !! k = ss !! k)
  ∧ init_session_state (init_session_state ss) = init_session_state ss
  ∧ is_Some (all_selected (init_session_state ss))
  ∧ selected_tags (init_session_state ∅) = ALL_TAGS_TO_ANONYMIZE.
Proof.
  unfold init_session_state. split_and!.
  - intros k b Hk. by rewrite init_session_state_lookup, Hk.
  - intros t Hin Hk. rewrite init_session_state_lookup, Hk.
    rewrite bool_decide_true; [done |]. by apply list_elem_of_fmap_2.
  - intros k Hk. rewrite init_session_state_lookup.
    rewrite bool_decide_false by done. by destruct (ss !! k).
  - apply map_eq. intros k. rewrite !init_session_state_lookup.
    destruct (ss !! k); [done |]. by case_bool_decide.
  - apply all_checked_is_Some. intros t Hin.
    rewrite init_session_state_lookup.
    destruct (ss !! tag_key t); [by eexists |].
    rewrite bool_decide_true; [by eexists |]. by apply list_elem_of_fmap_2.
  - by vm_compute.
Qed.

Lemma select_all_lookup (b : bool) (tags : list Tag) (ss : SessionState)
    (k : string) :
  fold_left (λ ss tag, <[tag_key tag := b]> ss) tags ss !! k
  = if bool_decide (k ∈ tag_key <$> tags) then Some b else ss !! k.
Proof.
  revert ss. induction tags as [| t tags IH]; intros ss; cbn [fold_left];
    [done |].
  rewrite IH, fmap_cons.
  destruct (decide (k = tag_key t)) as [-> | Hkt].
  - rewrite (bool_decide_true (tag_key t ∈ tag_key t :: _))
      by apply list_elem_of_here.
    rewrite lookup_insert_eq. by case_bool_decide.
  - assert (k ∈ tag_key t :: (tag_key <$> tags) ↔ k ∈ tag_key <$> tags)
      as Hiff.
    { rewrite elem_of_cons. split; [by intros [? | ?] | auto]. }
    rewrite (bool_decide_ext _ _ Hiff). by rewrite lookup_insert_ne.
Qed.

Lemma select_all_key_is_no_tag_key (tags : list Tag) :
  "select_all_checkbox" ∉ tag_key <$> tags.
Proof. by intros (t & Heq & _)%list_elem_of_fmap. Qed.

(** X13: the callback of the checkbox "Select/Deselect All" gives its own
    state to every tag of the catalog and to no other key: afterwards the
    selection is the whole catalog when it is checked and empty when it is
    not, and line 150 computes that same state. *)
Theorem select_all_sets_every_tag (ss : SessionState) (b : bool) :
  ss !! "select_all_checkbox" = Some b →
  ∃ ss',
    select_all_callback ss = Some ss'
    ∧ (∀ t, t ∈ ALL_TAGS_TO_ANONYMIZE → ss' !! tag_key t = Some b)
    ∧ (∀ k, k ∉ tag_key <$> ALL_TAGS_TO_ANONYMIZE → ss' !! k = ss !! k)
    ∧ ss' !! "select_all_checkbox" = Some b
    ∧ selected_tags ss' = (if b then ALL_TAGS_TO_ANONYMIZE else [])
    ∧ all_selected ss' = Some b.
Proof.
  intros Hb. unfold select_all_callback. rewrite Hb. eexists.
  split; [done |].
  assert (∀ t, t ∈ ALL_TAGS_TO_ANONYMIZE →
            fold_left (λ ss tag, <[tag_key tag := b]> ss)
              ALL_TAGS_TO_ANONYMIZE ss !! tag_key t = Some b) as Hall.
  { intros t Hin. rewrite select_all_lookup.
    rewrite bool_decide_true; [done |]. by apply list_elem_of_fmap_2. }
  split_and!.
  - exact Hall.
  - intros k Hk. by rewrite select_all_lookup, bool_decide_false.
  - rewrite select_all_lookup, bool_decide_false; [done |].
    apply select_all_key_is_no_tag_key.
  - rewrite selected_tags_filter. unfold is_checked. destruct b.
    + apply filter_all. intros t Hin. by rewrite Hall.
    + apply filter_none. intros t Hin. by rewrite Hall.
  - unfold all_selected. destruct b.
    + by apply all_checked_Some_true.
    + assert ((0x0010, 0x0010)%N ∈ ALL_TAGS_TO_ANONYMIZE) as Hfirst
        by apply list_elem_of_here.
      apply Hall in Hfirst. revert Hfirst.
      generalize (fold_left (λ ss tag, <[tag_key tag := false]> ss)
                    ALL_TAGS_TO_ANONYMIZE ss).
      intros ss' Hfirst.
      change ALL_TAGS_TO_ANONYMIZE
        with ((0x0010, 0x0010)%N :: tail ALL_TAGS_TO_ANONYMIZE).
      cbn [all_checked]. by rewrite Hfirst.
Qed.

(** X14: once every tag of the catalog has a state, the checkbox
    "Select/Deselect All" is shown checked (line 150 computes [True])
    exactly when the selection is the whole catalog. *)
Theorem all_selected_iff_whole_catalog (ss : SessionState) :
  (∀ t, t ∈ ALL_TAGS_TO_ANONYMIZE → is_Some (ss !! tag_key t)) →
  (all_selected ss = Some true ↔ selected_tags ss = ALL_TAGS_TO_ANONYMIZE)
  ∧ (all_selected ss = Some false
     ↔ selected_tags ss ≠ ALL_TAGS_TO_ANONYMIZE).
Proof.
  intros Hkeys.
  assert (all_selected ss = Some true
          ↔ selected_tags ss = ALL_TAGS_TO_ANONYMIZE) as Htrue.
  { unfold all_selected.
    rewrite all_checked_Some_true, selected_tags_filter, filter_all.
    unfold is_checked. split; intros H t Hin; specialize (H t Hin).
    - by rewrite H.
    - destruct (Hkeys t Hin) as [b Hb]. rewrite Hb in H |- *.
      simpl in H. by subst b. }
  split; [exact Htrue |].
  destruct (all_checked_is_Some ss ALL_TAGS_TO_ANONYMIZE Hkeys)
    as [[|] Hb]; fold (all_selected ss) in Hb; rewrite Hb.
  - split; [done |]. intros Hne. destruct Hne. by apply Htrue.
  - split; [| done]. intros _ Heq%Htrue. congruence.
Qed.

End Checkboxes.


(** * The sample files through the engine *)

Section SampleRuns.

Local Abbreviation run input_path output_path selection :=
  (anonymize_dicom_file sample_uid_stream sample_rejects_empty
     sample_unwritable input_path output_path selection sample_world).

Local Abbreviation pass selection st :=
  (rewrite_pass sample_uid_stream sample_rejects_empty selection st).

(** The scan comes out with (0002,0003) equal to (0008,0018). *)
Lemma meta_uid_equals_dataset_uid_witness :
  files sample_world !! "in/scan.dcm" = Some (DicomFile sample_file)
  ∧ is_Some (file_meta sample_file !! MediaStorageSOPInstanceUID)
  ∧ run "in/scan.dcm" "out/scan.dcm" sample_selection
    = (Return true, (run "in/scan.dcm" "out/scan.dcm" sample_selection).2)
  ∧ ∃ fd' m e,
      files (run "in/scan.dcm" "out/scan.dcm" sample_selection).2
        !! "out/scan.dcm" = Some (DicomFile fd')
      ∧ file_meta fd' !! MediaStorageSOPInstanceUID = Some m
      ∧ dataset fd' !! SOPInstanceUID = Some e
      ∧ value m = value e.
Proof.
  assert (files sample_world !! "in/scan.dcm" = Some (DicomFile sample_file))
    as Hfile by reflexivity.
  assert (is_Some (file_meta sample_file !! MediaStorageSOPInstanceUID))
    as Hmeta by (eexists; reflexivity).
  assert (run "in/scan.dcm" "out/scan.dcm" sample_selection
          = (Return true,
             (run "in/scan.dcm" "out/scan.dcm" sample_selection).2))
    as Hrun by (vm_compute; reflexivity).
  split_and!; [exact Hfile | exact Hmeta | exact Hrun |].
  exact (meta_uid_equals_dataset_uid _ _ _ _ _ _ _ _ _ Hfile Hmeta Hrun).
Defined.

(** With the empty selection too, the scan comes out without its private
    elements. *)
Lemma no_private_element_survives_witness :
  run "in/scan.dcm" "out/scan.dcm" []
  = (Return true, (run "in/scan.dcm" "out/scan.dcm" []).2)
  ∧ ∃ fd',
      files (run "in/scan.dcm" "out/scan.dcm" []).2 !! "out/scan.dcm"
        = Some (DicomFile fd')
      ∧ private_free (dataset fd') = true
      ∧ ∀ t e, dataset fd' !! t = Some e → N.odd t.1 = false.
Proof.
  assert (run "in/scan.dcm" "out/scan.dcm" []
          = (Return true, (run "in/scan.dcm" "out/scan.dcm" []).2))
    as Hrun by (vm_compute; reflexivity).
  split; [exact Hrun |].
  exact (no_private_element_survives _ _ _ _ _ _ _ _ Hrun).
Defined.


(** C4, on a DICOMDIR: the file decodes, its file meta holds
    (0002,0003), its dataset has no (0008,0018), and the call raises
    [AttributeError] instead of returning a boolean. *)
Theorem dicomdir_raises_AttributeError :
  dcmread sample_world "in/DICOMDIR" = inr sample_dicomdir
  ∧ (run "in/DICOMDIR" "out/DICOMDIR" sample_selection).1
    = Raise AttributeError
  ∧ files (run "in/DICOMDIR" "out/DICOMDIR" sample_selection).2
      !! "out/DICOMDIR" = None.
Proof. split_and!; by vm_compute. Qed.

(** The DICOMDIR raises, and nothing is written. *)
Lemma missing_sop_instance_uid_raises_witness :
  files sample_world !! "in/DICOMDIR" = Some (DicomFile sample_dicomdir)
  ∧ is_Some (file_meta sample_dicomdir !! MediaStorageSOPInstanceUID)
  ∧ dataset sample_dicomdir !! SOPInstanceUID = None
  ∧ ∃ w',
      run "in/DICOMDIR" "out/DICOMDIR" sample_selection
      = (Raise AttributeError, w')
      ∧ files w' = files sample_world.
Proof.
  assert (files sample_world !! "in/DICOMDIR"
          = Some (DicomFile sample_dicomdir)) as Hfile by reflexivity.
  assert (is_Some (file_meta sample_dicomdir !! MediaStorageSOPInstanceUID))
    as Hmeta by (eexists; reflexivity).
  assert (dataset sample_dicomdir !! SOPInstanceUID = None) as Hsop
    by reflexivity.
  split_and!; [exact Hfile | exact Hmeta | exact Hsop |].
  exact (missing_sop_instance_uid_raises _ _ _ _ _ _ _ _ Hfile Hmeta Hsop).
Defined.


(** The text file is skipped: the call returns [False], logs the warning
    and writes nothing. *)
Example text_file_is_skipped :
  run "in/notes.txt" "out/notes.txt" sample_selection
  = (Return false,
     log_record (Warning_skipping_non_dicom "in/notes.txt") sample_world).
Proof. reflexivity. Qed.

(** A dataset with the private element (0009,0010) alone comes out of the
    empty selection without it. *)
Example lone_private_element_removed :
  (pass [] ({[ (0x0009, 0x0010)%N := Element "LO" (VText "VENDOR") ]},
            sample_world)).1
  = ∅.
Proof. by vm_compute. Qed.

(** The birth date "19850604" of the scan becomes the sentinel date, and
    its two selected UI elements take the first two identifiers of the
    generator, in the order of the selection. *)
Example scan_rewritten :
  let ds' := (pass sample_selection (sample_dataset, sample_world)).1 in
  ds' !! (0x0010, 0x0030)%N = Some (Element "DA" (VText "18000101"))
  ∧ ds' !! (0x0020, 0x000D)%N = Some (Element "UI" (VText "2.25.0"))
  ∧ ds' !! (0x0008, 0x0018)%N = Some (Element "UI" (VText "2.25.1"))
  ∧ ds' !! (0x0028, 0x0010)%N = None
  ∧ ds' !! (0x0009, 0x0010)%N = None.
Proof. split_and!; by vm_compute. Qed.

Lemma sample_uid_stream_under_root (n : nat) :
  under_sample_root (sample_uid_stream n).
Proof. by exists (pretty n). Qed.

(** A second run leaves the anonymized name as it is and draws a new
    identifier for the SOP instance. *)
Lemma second_run_fixed_point_witness :
  (∀ n, under_sample_root (sample_uid_stream n))
  ∧ (pass sample_selection (sample_dataset, sample_world)).1
      !! (0x0010, 0x0010)%N
    = Some (Element "PN" (VText "ANONYMIZED"))
  ∧ (pass sample_selection
       (pass sample_selection (sample_dataset, sample_world))).1
      !! (0x0010, 0x0010)%N
    = Some (Element "PN" (VText "ANONYMIZED")).
Proof.
  assert ((pass sample_selection (sample_dataset, sample_world)).1
            !! (0x0010, 0x0010)%N
          = Some (Element "PN" (VText "ANONYMIZED"))) as Hfirst
    by (vm_compute; reflexivity).
  split_and!; [exact sample_uid_stream_under_root | exact Hfirst |].
  apply (second_run_fixed_point sample_uid_stream sample_rejects_empty
           under_sample_root sample_uid_stream_under_root
           sample_selection sample_dataset sample_world _ _ Hfirst).
  apply list_elem_of_here.
Defined.

(** C8 as stated fails on the scan: its sequence (0040,0275) is neither
    selected nor private, and the private element of its item is gone
    after the rewrite with the empty selection. *)
Lemma unselected_sequence_loses_nested_private :
  ((0x0040, 0x0275)%N ∉ @nil Tag)
  ∧ is_private (0x0040, 0x0275)%N = false
  ∧ sample_dataset !! (0x0040, 0x0275)%N = Some sample_sequence
  ∧ (pass [] (sample_dataset, sample_world)).1 !! (0x0040, 0x0275)%N
    = Some (Element "SQ" (VSequence
        [ {[ (0x0040, 0x1001)%N := Element "SH" (VText "REQ7") ]} ]))
  ∧ (pass [] (sample_dataset, sample_world)).1 !! (0x0040, 0x0275)%N
    ≠ Some sample_sequence.
Proof.
  split_and!; [by intros ?%elem_of_nil | done | done | by vm_compute |].
  intros Heq.
  apply (f_equal (λ o : option DataElement,
           match o with
           | Some (Element _ (VSequence [d])) => d !! (0x0009, 0x0010)%N
           | _ => None
           end)) in Heq.
  vm_compute in Heq. discriminate Heq.
Qed.

(** On the scan with only the patient's name selected: the sequence
    keeps its tag and VR and loses the private element of its item, the
    birth date stays as it was, and the absent patient ID is skipped. *)
Lemma rewrite_pass_frame_witness :
  (pass [(0x0010, 0x0010)%N] (sample_dataset, sample_world)).1
    !! (0x0040, 0x0275)%N
  = Some (walk_remove_private sample_sequence)
  ∧ (pass [(0x0010, 0x0010)%N] (sample_dataset, sample_world)).1
      !! (0x0010, 0x0030)%N
    = Some (Element "DA" (VText "19850604"))
  ∧ (pass [(0x0010, 0x0010)%N] (sample_dataset, sample_world)).1
      !! (0x0010, 0x0020)%N = None.
Proof.
  pose proof (rewrite_pass_frame sample_uid_stream sample_rejects_empty
                [(0x0010, 0x0010)%N] sample_dataset sample_world)
    as (_ & Habsent & Hframe & _).
  assert (∀ t : Tag, t ≠ (0x0010, 0x0010)%N → t ∉ [(0x0010, 0x0010)%N])
    as Hnot by (intros t Ht ?%list_elem_of_singleton; done).
  split_and!.
  - destruct (Hframe (0x0040, 0x0275)%N sample_sequence) as [Hseq _];
      [by apply Hnot | done | done | exact Hseq].
  - destruct (Hframe (0x0010, 0x0030)%N (Element "DA" (VText "19850604")))
      as [_ Hdate]; [by apply Hnot | done | done |].
    by apply Hdate.
  - by apply Habsent.
Defined.


(** Two runs on the scan with generators of their own: with the name and
    the birth date selected they write the same dataset. *)
Lemma rewrite_pass_deterministic_but_for_uids_witness :
  (∀ t e, t ∈ [(0x0010, 0x0010)%N; (0x0010, 0x0030)%N] →
     sample_dataset !! t = Some e → VR e ≠ "UI")
  ∧ (rewrite_pass sample_uid_stream sample_rejects_empty
       [(0x0010, 0x0010)%N; (0x0010, 0x0030)%N]
       (sample_dataset, sample_world)).1
    = (rewrite_pass other_uid_stream sample_rejects_empty
         [(0x0010, 0x0010)%N; (0x0010, 0x0030)%N]
         (sample_dataset, log_record (Warning_skipping_non_dicom "x")
                            sample_world)).1.
Proof.
  assert (∀ t e, t ∈ [(0x0010, 0x0010)%N; (0x0010, 0x0030)%N] →
            sample_dataset !! t = Some e → VR e ≠ "UI") as Hno.
  { intros t e Hin Hte.
    repeat (apply elem_of_cons in Hin as [-> | Hin];
            [vm_compute in Hte; by injection Hte as <- |]).
    by apply elem_of_nil in Hin. }
  split; [exact Hno |].
  by apply (rewrite_pass_deterministic_but_for_uids sample_uid_stream
              other_uid_stream sample_rejects_empty).
Defined.

End SampleRuns.

(** * The sample files through the rest of the application *)

Section SampleApplication.

Local Abbreviation pass selection st :=
  (rewrite_pass sample_uid_stream sample_rejects_empty selection st).

Local Abbreviation run input_path output_path selection :=
  (anonymize_dicom_file sample_uid_stream sample_rejects_empty
     sample_unwritable input_path output_path selection sample_world).

Local Abbreviation click selection :=
  (anonymize_directory sample_uid_stream sample_rejects_empty
     sample_unwritable sample_relpath sample_os_walk sample_isdir
     selection "/data" sample_directory).

(** Another patient's name in the scan gives the same anonymized dataset. *)
Lemma selected_values_are_erased_witness :
  (∀ t e1 e2, VR e1 = VR e2 →
     sample_rejects_empty t e1 = sample_rejects_empty t e2)
  ∧ pass sample_selection (sample_dataset, sample_world)
    = pass sample_selection
        (<[(0x0010, 0x0010)%N := Element "PN" (VText "John Roe")]>
           sample_dataset, sample_world).
Proof.
  assert (∀ t e1 e2, VR e1 = VR e2 →
            sample_rejects_empty t e1 = sample_rejects_empty t e2) as Hvr.
  { intros t e1 e2 Heq. unfold sample_rejects_empty. by rewrite Heq. }
  split; [exact Hvr |].
  apply (selected_values_are_erased sample_uid_stream sample_rejects_empty
           Hvr).
  - intros t Hsel. rewrite lookup_insert_ne; [done |].
    intros <-. apply Hsel, list_elem_of_here.
  - intros t _. destruct (decide (t = (0x0010, 0x0010)%N)) as [-> | Hne].
    + by vm_compute.
    + by rewrite lookup_insert_ne.
Defined.

(** The procedure ID in the item of the unselected sequence of the scan
    stays as it is, although its tag is selected. *)
Lemma nested_element_survives_witness :
  (0x0040, 0x0275)%N ∉ [(0x0040, 0x1001)%N; (0x0010, 0x0010)%N]
  ∧ sample_dataset !! (0x0040, 0x0275)%N
    = Some (Element "SQ" (VSequence [sample_item]))
  ∧ sample_item !! (0x0040, 0x1001)%N = Some (Element "SH" (VText "REQ7"))
  ∧ ∃ items' item',
      (pass [(0x0040, 0x1001)%N; (0x0010, 0x0010)%N]
         (sample_dataset, sample_world)).1 !! (0x0040, 0x0275)%N
        = Some (Element "SQ" (VSequence items'))
      ∧ length items' = 1
      ∧ items' !! 0 = Some item'
      ∧ item' !! (0x0040, 0x1001)%N = Some (Element "SH" (VText "REQ7")).
Proof.
  assert ((0x0040, 0x0275)%N ∉ [(0x0040, 0x1001)%N; (0x0010, 0x0010)%N])
    as Hsel.
  { intros [[=] | [[=] | []%elem_of_nil]%elem_of_cons]%elem_of_cons. }
  split_and!; [exact Hsel | done | done |].
  by apply (nested_element_survives sample_uid_stream sample_rejects_empty
              _ sample_dataset sample_world (0x0040, 0x0275)%N
              (0x0040, 0x1001)%N [sample_item] 0 sample_item
              (Element "SH" (VText "REQ7")) Hsel).
Defined.

(** The selected sequence of the scan comes out without items. *)
Lemma selected_sequence_is_emptied_witness :
  (0x0040, 0x0275)%N ∈ [(0x0040, 0x0275)%N]
  ∧ sample_dataset !! (0x0040, 0x0275)%N = Some sample_sequence
  ∧ VR sample_sequence = "SQ"
  ∧ ((pass [(0x0040, 0x0275)%N] (sample_dataset, sample_world)).1
       !! (0x0040, 0x0275)%N = None
     ∨ (pass [(0x0040, 0x0275)%N] (sample_dataset, sample_world)).1
         !! (0x0040, 0x0275)%N = Some (Element "SQ" (VText ""))).
Proof.
  assert ((0x0040, 0x0275)%N ∈ [(0x0040, 0x0275)%N]) as Hin
    by apply list_elem_of_here.
  split_and!; [exact Hin | done | done |].
  by apply (selected_sequence_is_emptied sample_uid_stream
              sample_rejects_empty _ sample_dataset sample_world _
              sample_sequence Hin).
Defined.

(** The rows of the scan, of VR US, are deleted, and the warning is in the
    log. *)
Lemma deletion_iff_warning_witness :
  sample_dataset !! (0x0028, 0x0010)%N = Some (Element "US" (VText "512"))
  ∧ is_private (0x0028, 0x0010)%N = false
  ∧ ∃ rs,
      records (pass sample_selection (sample_dataset, sample_world)).2
      = records sample_world ++ rs
      ∧ ((pass sample_selection (sample_dataset, sample_world)).1
           !! (0x0028, 0x0010)%N = None
         ↔ Warning_could_not_blank (0x0028, 0x0010)%N ∈ rs).
Proof.
  split_and!; [done | done |].
  by apply (deletion_iff_warning sample_uid_stream sample_rejects_empty
              sample_selection sample_dataset sample_world
              (0x0028, 0x0010)%N (Element "US" (VText "512"))).
Defined.




(** Unchecking "Select/Deselect All" empties the selection. *)
Lemma select_all_sets_every_tag_witness :
  ({["select_all_checkbox" := false]} : SessionState)
    !! "select_all_checkbox" = Some false
  ∧ ∃ ss',
      select_all_callback {["select_all_checkbox" := false]} = Some ss'
      ∧ selected_tags ss' = []
      ∧ all_selected ss' = Some false.
Proof.
  assert (({["select_all_checkbox" := false]} : SessionState)
            !! "select_all_checkbox" = Some false) as Hb by reflexivity.
  split; [exact Hb |].
  destruct (select_all_sets_every_tag _ _ Hb)
    as (ss' & Hcall & _ & _ & _ & Hsel & Hall).
  by exists ss'.
Defined.

Lemma fresh_session_has_every_key (t : Tag) :
  t ∈ ALL_TAGS_TO_ANONYMIZE →
  is_Some (init_session_state ∅ !! tag_key t).
Proof.
  revert t. apply Forall_forall. apply (bool_decide_unpack _). by vm_compute.
Qed.

(** On a fresh session the checkbox "Select/Deselect All" is checked. *)
Lemma all_selected_iff_whole_catalog_witness :
  (∀ t, t ∈ ALL_TAGS_TO_ANONYMIZE →
     is_Some (init_session_state ∅ !! tag_key t))
  ∧ (all_selected (init_session_state ∅) = Some true
     ↔ selected_tags (init_session_state ∅) = ALL_TAGS_TO_ANONYMIZE).
Proof.
  split; [exact fresh_session_has_every_key |].
  apply (all_selected_iff_whole_catalog _ fresh_session_has_every_key).
Defined.

(** The scan of "/data" finds the scan at its top. *)
Lemma input_directory_is_scanned_witness :
  ("/data", ["anonymized"; "anonymized_old"; "sub"],
   ["notes.txt"; "scan.dcm"]) ∈ sample_os_walk "/data"
  ∧ "scan.dcm" ∈ ["notes.txt"; "scan.dcm"]
  ∧ os_path_join "/data" "scan.dcm"
    ∈ files_to_process (os_path_join "/data" "anonymized")
        (sample_os_walk "/data").
Proof.
  assert (("/data", ["anonymized"; "anonymized_old"; "sub"],
           ["notes.txt"; "scan.dcm"]) ∈ sample_os_walk "/data") as Hin
    by apply list_elem_of_here.
  assert ("scan.dcm" ∈ ["notes.txt"; "scan.dcm"]) as Hf
    by apply list_elem_of_further, list_elem_of_here.
  split_and!; [exact Hin | exact Hf |].
  exact (input_directory_is_scanned _ _ _ _ _ Hin Hf).
Defined.

(** The scan of "/data" skips the output directory, and with it the
    directory "anonymized_old". *)
Example sample_scan_is_the_scan :
  files_to_process (os_path_join "/data" "anonymized")
    (sample_os_walk "/data")
  = sample_scan.
Proof. by vm_compute. Qed.


Lemma sample_walk_lists_names (root : string) (dirs files : list string)
    (f : string) :
  (root, dirs, files) ∈ sample_os_walk "/data" → f ∈ files →
  has_sep f = false.
Proof.
  intros Hentry Hf. unfold sample_os_walk in Hentry.
  repeat (apply elem_of_cons in Hentry as [[= -> -> ->] | Hentry];
          [repeat (apply elem_of_cons in Hf as [-> | Hf]; [done |]);
           by apply elem_of_nil in Hf |]).
  by apply elem_of_nil in Hentry.
Qed.

Lemma sample_relpath_is_relative (p : string) :
  p ∈ files_to_process (os_path_join "/data" "anonymized")
        (sample_os_walk "/data") →
  startswith (sample_relpath p "/data") "/" = false.
Proof.
  rewrite sample_scan_is_the_scan. unfold sample_scan. intros Hp.
  repeat (apply elem_of_cons in Hp as [-> | Hp]; [done |]).
  by apply elem_of_nil in Hp.
Qed.

(** The click on "/data" leaves the scan in the sub-directory as it was. *)
Lemma batch_keeps_its_inputs_witness :
  (∀ root dirs files f,
     (root, dirs, files) ∈ sample_os_walk "/data" → f ∈ files →
     has_sep f = false)
  ∧ (∀ p, p ∈ files_to_process (os_path_join "/data" "anonymized")
                (sample_os_walk "/data") →
          startswith (sample_relpath p "/data") "/" = false)
  ∧ "/data/sub/b.dcm"
    ∈ files_to_process (os_path_join "/data" "anonymized")
        (sample_os_walk "/data")
  ∧ files (click sample_selection).2 !! "/data/sub/b.dcm"
    = files sample_directory !! "/data/sub/b.dcm".
Proof.
  assert ("/data/sub/b.dcm"
          ∈ files_to_process (os_path_join "/data" "anonymized")
              (sample_os_walk "/data")) as Hp.
  { rewrite sample_scan_is_the_scan.
    apply list_elem_of_further, list_elem_of_further, list_elem_of_here. }
  split_and!;
    [exact sample_walk_lists_names | exact sample_relpath_is_relative
    | exact Hp |].
  exact (batch_keeps_its_inputs sample_uid_stream sample_rejects_empty
           sample_unwritable sample_relpath sample_os_walk sample_isdir
           "/data" sample_selection sample_walk_lists_names
           sample_relpath_is_relative sample_directory _ Hp).
Defined.

(** The click on "/data" reports the two scans that the scan has found. *)
Lemma count_is_number_of_dicom_files_witness :
  click sample_selection
  = (inr [Success_found 3; Success_complete 2 "/data/anonymized"],
     (click sample_selection).2)
  ∧ Success_complete 2 "/data/anonymized"
    ∈ [Success_found 3; Success_complete 2 "/data/anonymized"]
  ∧ 2 = length (filter (λ p, is_dicom_file sample_directory p = true)
                  (files_to_process (os_path_join "/data" "anonymized")
                     (sample_os_walk "/data"))).
Proof.
  assert (click sample_selection
          = (inr [Success_found 3; Success_complete 2 "/data/anonymized"],
             (click sample_selection).2)) as Hclick
    by (vm_compute; reflexivity).
  assert (Success_complete 2 "/data/anonymized"
          ∈ [Success_found 3; Success_complete 2 "/data/anonymized"])
    as Hmsg by apply list_elem_of_further, list_elem_of_here.
  split_and!; [exact Hclick | exact Hmsg |].
  by destruct (count_is_number_of_dicom_files sample_uid_stream
                 sample_rejects_empty sample_unwritable sample_relpath
                 sample_os_walk sample_isdir "/data" sample_selection
                 sample_walk_lists_names sample_relpath_is_relative
                 sample_directory _ _ _ _ Hclick Hmsg) as (_ & Hc & _).
Defined.



End SampleApplication.
